(** * NetworkHelpers: the epoch loop, the trainer, the evaluator and the tester

    A shallow embedding of [NetworkHelpers.py]: [train_loop], [train_model],
    [evaluate_model] and [test_model], as functions in a state-and-exception
    monad over the objects the Python code mutates (the model's parameters,
    the two loss histories, the console and the checkpoint files).

    Python floats are binary64 values: losses are Rocq's primitive floats, so
    [np.Inf] is [infinity], [<=] is [PrimFloat.leb] and a NaN loss compares
    false, as in Python.  The network, the loss function and the optimizer
    are collaborators supplied by the caller: they are the variables of the
    section below, total functions (a failure inside one of them is fatal to
    the run and is not modelled).  Moving tensors between devices changes no
    value, and the wall-clock measurements of [train_loop] are left out. *)

From Stdlib Require Import ZArith Lia List String Ascii Decimal DecimalString DecimalNat.
From Stdlib Require Import PrimFloat Uint63.
From stdpp Require Import base list.

Set Warnings "-inexact-float".

(** ** Python exceptions and the monad of effects *)

Inductive PyError : Type :=
| TypeError
| ZeroDivisionError
| IndexError
| RuntimeError
| ValueError.

(** A call either returns a value or raises; in both cases the mutations it
    made so far stay in the world. *)
Inductive Outcome (W A : Type) : Type :=
| Returns (a : A) (w : W)
| Raises (e : PyError) (w : W).
Arguments Returns {W A} a w.
Arguments Raises {W A} e w.

Definition Py (W A : Type) : Type := W -> Outcome W A.

Definition py_ret {W A : Type} (a : A) : Py W A := fun w => Returns a w.

Definition py_bind {W A B : Type} (k : A -> Py W B) (m : Py W A) : Py W B :=
  fun w => match m w with
           | Returns a w' => k a w'
           | Raises e w' => Raises e w'
           end.

Definition py_raise {W A : Type} (e : PyError) : Py W A := fun w => Raises e w.

#[global] Instance Py_ret {W : Type} : MRet (Py W) := @py_ret W.
#[global] Instance Py_bind {W : Type} : MBind (Py W) := @py_bind W.
#[global] Instance Py_throw {W : Type} : MThrow PyError (Py W) := @py_raise W.

Definition gets {W A : Type} (f : W -> A) : Py W A := fun w => Returns (f w) w.
Definition modify {W : Type} (f : W -> W) : Py W unit := fun w => Returns tt (f w).

(** Down to the functions on worlds. *)
Ltac py_unfold :=
  unfold mbind, mret, mthrow, Py_bind, Py_ret, Py_throw,
    py_bind, py_ret, py_raise, gets, modify in *.

(** The world an outcome leaves behind. *)
Definition final_world {W A : Type} (o : Outcome W A) : W :=
  match o with
  | Returns _ w => w
  | Raises _ w => w
  end.

(** ** Loops

    What one pass through a loop body asks for: go on with the next element,
    [break] out of the loop, or [return] from the enclosing function.  The
    loop-carried local variables travel in [S]. *)
Inductive Flow (S R : Type) : Type :=
| Continue (s : S)
| Break (s : S)
| Return (r : R).
Arguments Continue {S R} s.
Arguments Break {S R} s.
Arguments Return {S R} r.

(** [for x in xs: body]: [Continue s] when the iterable is exhausted. *)
Fixpoint for_loop {W X S R : Type} (body : X -> S -> Py W (Flow S R))
    (xs : list X) (s : S) : Py W (Flow S R) :=
  match xs with
  | [] => mret (Continue s)
  | x :: xs' =>
      f ← body x s;
      match f with
      | Continue s' => for_loop body xs' s'
      | Break s' => mret (Break s')
      | Return r => mret (Return r)
      end
  end.

(** A loop whose body has neither [break] nor [return]. *)
Fixpoint for_each {W X S : Type} (body : X -> S -> Py W S)
    (xs : list X) (s : S) : Py W S :=
  match xs with
  | [] => mret s
  | x :: xs' => s' ← body x s; for_each body xs' s'
  end.

(** [enumerate(xs)] *)
Definition enumerate {X : Type} (xs : list X) : list (nat * X) :=
  combine (seq 0 (length xs)) xs.

(** ** Numbers *)

(** An [int] used where a float is expected ([loss.item() * data.size(0)],
    [x / len(...)]): Python converts it to the nearest binary64 value, which
    is what [of_uint63] does for the sizes a tensor or a dataset can have
    (below [2^63]). *)
Definition float_of_nat (n : nat) : float :=
  PrimFloat.of_uint63 (Uint63.of_Z (Z.of_nat n)).

(** [x / n] with [x] a float and [n] an [int]. *)
Definition truediv {W : Type} (x : float) (n : nat) : Py W float :=
  if (n =? 0)%nat then mthrow ZeroDivisionError
  else mret (x / float_of_nat n)%float.

(** [f'{n:03d}']: the decimal digits of [n], with zeros on the left up to a
    width of three. *)
Definition format_03d (n : nat) : string :=
  let digits := NilZero.string_of_uint (Nat.to_uint n) in
  String.append (string_of_list_ascii (repeat "0"%char (3 - String.length digits)))
                digits.

Definition checkpoint_name (epoch : nat) : string :=
  String.append (format_03d epoch) "model_cifar.pt".

(** The number a string of decimal digits denotes. *)
Definition decimal_value (s : string) : option nat :=
  option_map Nat.of_uint (NilEmpty.uint_of_string s).

(** Python's [xs[i]] for an index that may be negative: counted from the
    end when negative, [IndexError] out of range. *)
Definition py_index (len : nat) (i : Z) : option nat :=
  if (0 <=? i)%Z && (i <? Z.of_nat len)%Z then Some (Z.to_nat i)
  else if (- Z.of_nat len <=? i)%Z && (i <? 0)%Z then Some (Z.to_nat (Z.of_nat len + i))
  else None.

Definition list_get {W A : Type} (xs : list A) (i : nat) : Py W A :=
  match xs !! i with
  | Some x => mret x
  | None => mthrow IndexError
  end.

(** [xs[label] += v] on a list of counters: [xs[label]] is read first (a
    label out of range raises there), then [v] is evaluated, then the sum is
    stored. *)
Definition list_iadd {W : Type} (xs : list nat) (label : Z) (v : Py W nat) : Py W (list nat) :=
  match py_index (length xs) label with
  | Some k => x ← list_get xs k; y ← v; mret (<[k := x + y]> xs)
  | None => mthrow IndexError
  end.

(** [np.squeeze] of the vector of per-sample results: a vector of one
    element becomes a 0-dimensional array, which cannot be indexed. *)
Inductive Squeezed : Type :=
| Scalar0d (b : bool)
| Vector1d (bs : list bool).

Definition squeeze (bs : list bool) : Squeezed :=
  match bs with
  | [b] => Scalar0d b
  | _ => Vector1d bs
  end.

Definition squeezed_get {W : Type} (c : Squeezed) (i : nat) : Py W bool :=
  match c with
  | Scalar0d _ => mthrow IndexError
  | Vector1d bs => list_get bs i
  end.

(** ** What the console shows

    One constructor per [print] of the module; the wall-clock reports of
    [train_loop] are left out. *)
Inductive Line : Type :=
| LTraining
| LBatchLoss (epoch batch : nat) (mean : float)
| LEvaluation
| LEpochStats (epoch n_epochs : nat) (train_loss valid_loss : float)
| LSaving (valid_loss_min valid_loss : float)
| LNoImprovement (no_improvement : nat)
| LTestLoss (test_loss : float)
| LClassAccuracy (name : string) (percent correct total : nat)
| LClassNA (name : string)
| LOverallAccuracy (percent correct total : nat).

(** ** The harness *)

Section Harness.

(** The learnable parameters together with the optimizer's own state, the
    batches of inputs and the network's outputs are opaque. *)
Variables Params Data Output : Type.

(** [model(data)]: the forward pass, which depends on the mode the model is
    in ([True] after [model.train()], [False] after [model.eval()]). *)
Variable forward : bool -> Params -> Data -> Output.

(** [criterion(output, target).item()] *)
Variable criterion : Output -> list Z -> float.

(** [torch.max(output, 1)[1]]: the class of maximum score of each sample. *)
Variable argmax : Output -> list Z.

(** What one training iteration on a batch does to the parameters and to the
    optimizer's state: [optimizer.zero_grad()], the forward pass in training
    mode, [loss.backward()] and [optimizer.step()]. *)
Variable optimize : Params -> Data -> list Z -> Params.

(** A batch [(data, target)]: [size0] is [data.size(0)] and [target] holds
    the labels, so [len(target.data)] is [length target]. *)
Record Batch : Type := mkBatch {
  data : Data;
  size0 : nat;
  target : list Z
}.

(** A data source: the batches one pass yields, [len(loader.sampler)] and
    [len(loader.dataset)]. *)
Record DataLoader : Type := mkDataLoader {
  batches : list Batch;
  sampler_len : nat;
  dataset_len : nat
}.

(** The fields of [NetParams] the module reads; the model, the optimizer and
    the criterion it also carries are the section's variables and the
    [model] of the world. *)
Record NetParams : Type := mkNetParams {
  n_epochs : nat;
  max_no_improve_epochs : nat;
  batch_size : nat;
  train_on_gpu : bool;
  train_loader : DataLoader;
  validation_loader : DataLoader;
  test_loader : DataLoader
}.

Record DatasetModel : Type := mkDatasetModel {
  class_num : nat;
  classes : list string
}.

(** The objects the code mutates.  [train_loss_array] and [valid_loss_array]
    are the two lists [train_loop] creates and hands to [evaluate_model],
    which appends to them in place; [checkpoints] logs every [torch.save],
    oldest first, and [stdout] every printed line. *)
Record World : Type := mkWorld {
  model : Params;
  training : bool;
  model_on_gpu : bool;
  train_loss_array : list float;
  valid_loss_array : list float;
  stdout : list Line;
  checkpoints : list (string * Params)
}.

Definition print (l : Line) : Py World unit :=
  modify (fun w => mkWorld (model w) (training w) (model_on_gpu w)
                     (train_loss_array w) (valid_loss_array w)
                     (stdout w ++ [l]) (checkpoints w)).

(** [model.train()] and [model.eval()] *)
Definition model_set_mode (mode : bool) : Py World unit :=
  modify (fun w => mkWorld (model w) mode (model_on_gpu w)
                     (train_loss_array w) (valid_loss_array w)
                     (stdout w) (checkpoints w)).

(** [model.cuda()] *)
Definition model_cuda : Py World unit :=
  modify (fun w => mkWorld (model w) (training w) true
                     (train_loss_array w) (valid_loss_array w)
                     (stdout w) (checkpoints w)).

(** [x.cuda()] on a tensor: the same values on another device. *)
Definition cuda {A : Type} (x : A) : A := x.

(** [model(data)] *)
Definition model_call (d : Data) : Py World Output :=
  gets (fun w => forward (training w) (model w) d).

(** The gradient step on one batch. *)
Definition optimizer_step (d : Data) (t : list Z) : Py World unit :=
  modify (fun w => mkWorld (optimize (model w) d t) (training w) (model_on_gpu w)
                     (train_loss_array w) (valid_loss_array w)
                     (stdout w) (checkpoints w)).

(** [train_loss_array = []] and [valid_loss_array = []] *)
Definition new_loss_arrays : Py World unit :=
  modify (fun w => mkWorld (model w) (training w) (model_on_gpu w)
                     [] [] (stdout w) (checkpoints w)).

Definition train_loss_array_append (x : float) : Py World unit :=
  modify (fun w => mkWorld (model w) (training w) (model_on_gpu w)
                     (train_loss_array w ++ [x]) (valid_loss_array w)
                     (stdout w) (checkpoints w)).

Definition valid_loss_array_append (x : float) : Py World unit :=
  modify (fun w => mkWorld (model w) (training w) (model_on_gpu w)
                     (train_loss_array w) (valid_loss_array w ++ [x])
                     (stdout w) (checkpoints w)).

(** [torch.save(model.state_dict(), name)] *)
Definition torch_save (name : string) : Py World unit :=
  modify (fun w => mkWorld (model w) (training w) (model_on_gpu w)
                     (train_loss_array w) (valid_loss_array w)
                     (stdout w) (checkpoints w ++ [(name, model w)])).

(** *** [train_model]

    The [return train_loss] stands inside the [for] body, after the [if]:
    the first pass through the body returns.  When the loader yields no
    batch the function ends without a [return] and the caller gets [None]. *)
Definition train_model (netparams : NetParams) (train_loss_tmp train_loss : float)
    (epoch : nat) : Py World (option float) :=
  model_set_mode true;;
  print LTraining;;
  r ← for_loop
        (fun '(batch_i, b) '(train_loss_tmp, train_loss) =>
           let '(data, target) :=
             if train_on_gpu netparams then (cuda (data b), cuda (target b))
             else (data b, target b) in
           output ← model_call data;
           let loss := criterion output target in
           optimizer_step data target;;
           let train_loss_tmp := (train_loss_tmp + loss)%float in
           let train_loss := (train_loss + loss * float_of_nat (size0 b))%float in
           train_loss_tmp ←
             (if (batch_i mod 20 =? 19)%nat then
                print (LBatchLoss epoch (batch_i + 1) (train_loss_tmp / 20)%float);;
                mret 0%float
              else mret train_loss_tmp);
           mret (Return train_loss))
        (enumerate (batches (train_loader netparams)))
        (train_loss_tmp, train_loss);
  match r with
  | Return v => mret (Some v)
  | Continue _ | Break _ => mret None
  end.

(** *** [evaluate_model]

    [no_improvement] is an [int] parameter: the assignments to it rebind the
    local name only, and the function returns [valid_loss_min] alone. *)
Definition evaluate_model (netparams : NetParams) (train_loss : option float)
    (valid_loss valid_loss_min : float) (epoch no_improvement : nat) : Py World float :=
  print LEvaluation;;
  model_set_mode false;;
  valid_loss ← for_each
        (fun '(batch_i, b) valid_loss =>
           let '(data, target) :=
             if train_on_gpu netparams then (cuda (data b), cuda (target b))
             else (data b, target b) in
           y ← model_call data;
           let loss := criterion y target in
           mret (valid_loss + loss * float_of_nat (size0 b))%float)
        (enumerate (batches (validation_loader netparams)))
        valid_loss;
  train_loss ←
    match train_loss with
    | Some x => truediv x (sampler_len (train_loader netparams))
    | None => mthrow TypeError
    end;
  valid_loss ← truediv valid_loss (sampler_len (validation_loader netparams));
  print (LEpochStats epoch (n_epochs netparams) train_loss valid_loss);;
  train_loss_array_append train_loss;;
  valid_loss_array_append valid_loss;;
  if (valid_loss <=? valid_loss_min)%float then
    print (LSaving valid_loss_min valid_loss);;
    torch_save (checkpoint_name epoch);;
    let valid_loss_min := valid_loss in
    let no_improvement := 0 in
    mret valid_loss_min
  else
    let no_improvement := no_improvement + 1 in
    print (LNoImprovement no_improvement);;
    mret valid_loss_min.

(** *** [train_loop]

    The body of the [for epoch in range(1, n_epochs + 1)] loop.  The only
    local the body rebinds is [valid_loss_min]; [no_improvement] is read
    from the function's parameter and never assigned in [train_loop]. *)
Definition train_loop_body (netparams : NetParams) (no_improvement : nat)
    (epoch : nat) (valid_loss_min : float) : Py World (Flow float Empty_set) :=
  if (max_no_improve_epochs netparams <=? no_improvement)%nat then
    mret (Break valid_loss_min)
  else
    let train_loss := 0%float in
    let train_loss_tmp := 0%float in
    let valid_loss := 0%float in
    train_loss ← train_model netparams train_loss_tmp train_loss epoch;
    valid_loss_min ← evaluate_model netparams train_loss valid_loss valid_loss_min
                       epoch no_improvement;
    mret (Continue valid_loss_min).

(** The loop over a given list of epochs, from the initial locals: what
    [train_loop] has computed when the loop is left. *)
Definition train_loop_epochs (netparams : NetParams) (no_improvement : nat)
    (epochs : list nat) : Py World (Flow float Empty_set) :=
  let valid_loss_min := infinity in
  new_loss_arrays;;
  for_loop (train_loop_body netparams no_improvement) epochs valid_loss_min.

Definition train_loop (netparams : NetParams) (no_improvement : nat)
    : Py World (list float * list float) :=
  r ← train_loop_epochs netparams no_improvement (seq 1 (n_epochs netparams));
  match r with
  | Continue _ | Break _ =>
      tl ← gets train_loss_array;
      vl ← gets valid_loss_array;
      mret (tl, vl)
  | Return r => match r : Empty_set with end
  end.

(** *** [test_model] *)

(** [pred.eq(target.data.view_as(pred))]: [view_as] needs as many labels as
    predictions. *)
Definition tensor_eq (pred tgt : list Z) : Py World (list bool) :=
  if (length pred =? length tgt)%nat then
    mret (zip_with (fun p t => bool_decide (p = t)) pred tgt)
  else mthrow RuntimeError.

(** The locals the test loop carries: [test_loss], [class_correct] and
    [class_total].  The two lists hold floats that only ever count samples
    ([0.], [1.], [2.], ...); binary64 represents every integer below [2^53]
    exactly, so they are modelled by the natural numbers they stand for
    (a [True] added to a float counts as one). *)
Definition TestLocals : Type := float * list nat * list nat.

(** The body of [for data, target in netparams.test_loader]. *)
Definition test_loop_body (netparams : NetParams) (b : Batch) (locals : TestLocals)
    : Py World (Flow TestLocals Empty_set) :=
  let '(test_loss, class_correct, class_total) := locals in
  if (length (target b) <? batch_size netparams)%nat then
    mret (Break (test_loss, class_correct, class_total))
  else
    let '(data, target) :=
      if train_on_gpu netparams then (cuda (data b), cuda (target b))
      else (data b, target b) in
    output ← model_call data;
    let loss := criterion output target in
    let test_loss := (test_loss + loss * float_of_nat (size0 b))%float in
    let pred := argmax output in
    correct_tensor ← tensor_eq pred target;
    let correct := squeeze correct_tensor in
    counts ← for_each
      (fun i '(class_correct, class_total) =>
         label ← list_get target i;
         class_correct ← list_iadd class_correct label
                           (hit ← squeezed_get correct i;
                            mret (if hit : bool then 1 else 0));
         class_total ← list_iadd class_total label (mret 1);
         mret (class_correct, class_total))
      (seq 0 (batch_size netparams))
      (class_correct, class_total);
    mret (Continue (test_loss, counts.1, counts.2)).

(** The pass over the test data: everything of [test_model] before the
    average is taken. *)
Definition test_pass (netparams : NetParams) (working_ds : DatasetModel)
    : Py World TestLocals :=
  let test_loss := 0%float in
  let class_correct := replicate (class_num working_ds) 0 in
  let class_total := replicate (class_num working_ds) 0 in
  model_set_mode false;;
  (if train_on_gpu netparams then model_cuda else mret tt);;
  r ← for_loop (test_loop_body netparams) (batches (test_loader netparams))
        (test_loss, class_correct, class_total);
  match r with
  | Continue locals | Break locals => mret locals
  | Return r => match r : Empty_set with end
  end.

(** One pass through [for i in range(working_ds.class_num)]: the line for
    class [i].  [%2d] prints the integer part of [100 * correct / total],
    the quotient of the division on naturals. *)
Definition report_class (working_ds : DatasetModel) (class_correct class_total : list nat)
    (i : nat) : Py World unit :=
  total ← list_get class_total i;
  if (0 <? total)%nat then
    name ← list_get (classes working_ds) i;
    correct ← list_get class_correct i;
    print (LClassAccuracy name (100 * correct / total) correct total)
  else
    name ← list_get (classes working_ds) i;
    print (LClassNA name).

(** The last [print]: with no sample counted at all the percentage is
    [0.0 / 0.0], a NaN that [%2d] refuses. *)
Definition report_overall (class_correct class_total : list nat) : Py World unit :=
  let correct := sum_list class_correct in
  let total := sum_list class_total in
  if (total =? 0)%nat then mthrow ValueError
  else print (LOverallAccuracy (100 * correct / total) correct total).

Definition test_model (netparams : NetParams) (working_ds : DatasetModel) : Py World unit :=
  '(test_loss, class_correct, class_total) ← test_pass netparams working_ds;
  test_loss ← truediv test_loss (dataset_len (test_loader netparams));
  print (LTestLoss test_loss);;
  for_each (fun i _ => report_class working_ds class_correct class_total i)
           (seq 0 (class_num working_ds)) tt;;
  report_overall class_correct class_total.

(** ** Quantities the statements below speak about *)

(** The sum of [loss * data.size(0)] over [bs], added batch by batch to
    [acc] in the order of the list, for a model with parameters [p] in
    mode [mode]. *)
Definition loss_sum (mode : bool) (p : Params) (bs : list Batch) (acc : float) : float :=
  fold_left (fun acc b =>
               (acc + criterion (forward mode p (data b)) (target b)
                      * float_of_nat (size0 b))%float)
            bs acc.

(** The two means [evaluate_model] computes: the validation sum, started at
    [valid_loss], for a model with parameters [p] in evaluation mode, and
    the train sum it is handed, each over its loader's sample count. *)
Definition mean_valid_loss (netparams : NetParams) (p : Params) (valid_loss : float) : float :=
  (loss_sum false p (batches (validation_loader netparams)) valid_loss
   / float_of_nat (sampler_len (validation_loader netparams)))%float.

Definition mean_train_loss (netparams : NetParams) (train_loss : float) : float :=
  (train_loss / float_of_nat (sampler_len (train_loader netparams)))%float.

(** The batches in front of the first one that has fewer labels than
    [batch_size]. *)
Fixpoint full_prefix (batch_size : nat) (bs : list Batch) : list Batch :=
  match bs with
  | [] => []
  | b :: bs' =>
      if (length (target b) <? batch_size)%nat then []
      else b :: full_prefix batch_size bs'
  end.

(** The batches a test pass retains according to the specification: every
    batch but those shorter than [batch_size]. *)
Definition retained_per_spec (batch_size : nat) (bs : list Batch) : list Batch :=
  filter (fun b => (batch_size <= length (target b))%nat) bs.

(** [netparams] with other batches in its test loader. *)
Definition with_test_batches (netparams : NetParams) (bs : list Batch) : NetParams :=
  mkNetParams (n_epochs netparams) (max_no_improve_epochs netparams)
    (batch_size netparams) (train_on_gpu netparams)
    (train_loader netparams) (validation_loader netparams)
    (mkDataLoader bs (sampler_len (test_loader netparams))
                  (dataset_len (test_loader netparams))).

(** A test batch the pass gets through without raising, for a model with
    parameters [p]: the network predicts one class per label; the batch has
    more than one sample (the squeezed result of a single sample cannot be
    indexed), unless no sample is counted at all; and the labels of the
    counted samples index the lists of class counters. *)
Definition batch_well_formed (netparams : NetParams) (working_ds : DatasetModel)
    (p : Params) (b : Batch) : Prop :=
  length (argmax (forward false p (data b))) = length (target b) /\
  (batch_size netparams = 0 \/ length (target b) <> 1) /\
  forall i label,
    i < batch_size netparams -> target b !! i = Some label ->
    (- Z.of_nat (class_num working_ds) <= label < Z.of_nat (class_num working_ds))%Z.

(** The line the specification asks for class [i]: not applicable when no
    sample of the class was counted, else the ratio of the two counts. *)
Definition class_line_per_spec (name : string) (correct total : nat) : Line :=
  if (total =? 0)%nat then LClassNA name
  else LClassAccuracy name (100 * correct / total) correct total.

(** The world after the lines [ls] were printed. *)
Definition emit (ls : list Line) (w : World) : World :=
  mkWorld (model w) (training w) (model_on_gpu w)
    (train_loss_array w) (valid_loss_array w)
    (stdout w ++ ls) (checkpoints w).

(** How many times [train_model] was entered, read off the console. *)
Definition is_training (l : Line) : bool :=
  match l with
  | LTraining => true
  | _ => false
  end.

Definition trainings (lines : list Line) : nat :=
  length (List.filter is_training lines).

(** The locals a loop without [return] ends with. *)
Definition flow_locals {S : Type} (f : Flow S Empty_set) : S :=
  match f with
  | Continue s | Break s => s
  | Return r => match r : Empty_set with end
  end.

End Harness.

Arguments mkBatch {Data} data size0 target.
Arguments data {Data} b.
Arguments size0 {Data} b.
Arguments target {Data} b.
Arguments mkDataLoader {Data} batches sampler_len dataset_len.
Arguments batches {Data} d.
Arguments sampler_len {Data} d.
Arguments dataset_len {Data} d.
Arguments mkNetParams {Data} n_epochs max_no_improve_epochs batch_size train_on_gpu
  train_loader validation_loader test_loader.
Arguments n_epochs {Data} n.
Arguments max_no_improve_epochs {Data} n.
Arguments batch_size {Data} n.
Arguments train_on_gpu {Data} n.
Arguments train_loader {Data} n.
Arguments validation_loader {Data} n.
Arguments test_loader {Data} n.
Arguments mkWorld {Params} model training model_on_gpu train_loss_array
  valid_loss_array stdout checkpoints.
Arguments model {Params} w.
Arguments training {Params} w.
Arguments model_on_gpu {Params} w.
Arguments train_loss_array {Params} w.
Arguments valid_loss_array {Params} w.
Arguments stdout {Params} w.
Arguments checkpoints {Params} w.
Arguments print {Params} l.
Arguments model_set_mode {Params} mode.
Arguments train_model {Params Data Output} forward criterion optimize netparams
  train_loss_tmp train_loss epoch.
Arguments evaluate_model {Params Data Output} forward criterion netparams
  train_loss valid_loss valid_loss_min epoch no_improvement.
Arguments train_loop_body {Params Data Output} forward criterion optimize netparams
  no_improvement epoch valid_loss_min.
Arguments train_loop_epochs {Params Data Output} forward criterion optimize netparams
  no_improvement epochs.
Arguments train_loop {Params Data Output} forward criterion optimize netparams
  no_improvement.
Arguments test_loop_body {Params Data Output} forward criterion argmax netparams b locals.
Arguments test_pass {Params Data Output} forward criterion argmax netparams working_ds.
Arguments report_class {Params} working_ds class_correct class_total i.
Arguments report_overall {Params} class_correct class_total.
Arguments test_model {Params Data Output} forward criterion argmax netparams working_ds.
Arguments loss_sum {Params Data Output} forward criterion mode p bs acc.
Arguments full_prefix {Data} batch_size bs.
Arguments mean_valid_loss {Params Data Output} forward criterion netparams p valid_loss.
Arguments mean_train_loss {Data} netparams train_loss.
Arguments retained_per_spec {Data} batch_size bs.
Arguments with_test_batches {Data} netparams bs.
Arguments emit {Params} ls w.
Arguments batch_well_formed {Params Data Output} forward argmax netparams working_ds p b.

(** ** [plot_loss]

    The calls made to [matplotlib.pyplot], in order. *)
Inductive PlotCall : Type :=
| PltPlot (ys : list float)
| PltYlabel (name : string)
| PltShow.

Definition Canvas : Type := list PlotCall.

Definition plt (c : PlotCall) : Py Canvas unit := modify (fun calls => calls ++ [c]).

(** [min(xs)] keeps the first element and replaces it by every later element
    that is [<] the one kept.  The result is an element of the list: it is
    returned with its position, [best_pos]. *)
Fixpoint min_from (best_pos : nat) (best : float) (pos : nat) (xs : list float)
    : nat * float :=
  match xs with
  | [] => (best_pos, best)
  | x :: xs' =>
      if (x <? best)%float then min_from pos x (S pos) xs'
      else min_from best_pos best (S pos) xs'
  end.

Definition py_min {W : Type} (xs : list float) : Py W (nat * float) :=
  match xs with
  | [] => mthrow ValueError
  | x :: xs' => mret (min_from 0 x 1 xs')
  end.

(** [xs.index(v)] for the element [v] found at position [pos]: the first
    position whose element is [v] itself or [==] to it.  (An element that is
    the same object as [v] at another position has the same value, and is
    [==] to it unless it is a NaN; [min] returns a NaN only from position 0.) *)
Fixpoint index_from (pos : nat) (v : float) (j : nat) (xs : list float) : option nat :=
  match xs with
  | [] => None
  | x :: xs' =>
      if (j =? pos)%nat || (x =? v)%float then Some j
      else index_from pos v (S j) xs'
  end.

Definition list_index {W : Type} (xs : list float) (v : nat * float) : Py W nat :=
  match index_from (fst v) (snd v) 0 xs with
  | Some j => mret j
  | None => mthrow ValueError
  end.

Definition plot_loss (loss_name : string) (loss_array : list float) : Py Canvas unit :=
  m ← py_min loss_array;
  min_idx ← list_index loss_array m;
  plt (PltPlot (take min_idx loss_array));;
  plt (PltYlabel loss_name);;
  plt PltShow.

(** ** Frames

    [keeps f m]: whatever [m] does, returning or raising, it leaves [f] of
    the world as it was. *)
Definition keeps {W A B : Type} (f : W -> B) (m : Py W A) : Prop :=
  forall w, f (final_world (m w)) = f w.

(** What a test pass and an evaluation never touch. *)
Definition trained_state {Params : Type} (w : World Params)
    : Params * list float * list float * list (string * Params) :=
  (model w, train_loss_array w, valid_loss_array w, checkpoints w).

(** How many of the [labels] index cell [k] of a list of [n] counters. *)
Definition label_count (n k : nat) (labels : list Z) : nat :=
  length (filter (fun l => py_index n l = Some k) labels).

(** The labels a test pass counts: the first [batch_size] labels of every
    batch it retains. *)
Definition counted_labels {Data : Type} (batch_size : nat) (bs : list (Batch Data))
    : list Z :=
  concat (map (fun b => take batch_size (target b)) (full_prefix batch_size bs)).

(** ** A small network to run the code on

    Its parameters are the number of gradient steps taken so far.  A batch's
    data carries the loss the criterion reports after 0, 1, 2, ... steps and
    the classes the network predicts for its samples. *)
Module Scenario.

Definition Params : Type := nat.
Definition Data : Type := (list float * list Z)%type.
Definition Output : Type := (nat * Data)%type.

Definition forward (_ : bool) (p : Params) (d : Data) : Output := (p, d).
Definition criterion (o : Output) (_ : list Z) : float := nth (fst o) (fst (snd o)) 1%float.
Definition argmax (o : Output) : list Z := snd (snd o).
Definition optimize (p : Params) (_ : Data) (_ : list Z) : Params := S p.

Definition world0 : World Params := mkWorld 0 false false [] [] [] [].

(** Two training batches of four samples, with losses 2 and 3. *)
Definition train_batch_a : Batch Data :=
  mkBatch ([2; 2; 2; 2]%float, [0; 0; 0; 0]%Z) 4 [0; 0; 0; 0]%Z.
Definition train_batch_b : Batch Data :=
  mkBatch ([3; 3; 3; 3]%float, [0; 0; 0; 0]%Z) 4 [0; 0; 0; 0]%Z.
Definition two_batches : DataLoader Data :=
  mkDataLoader [train_batch_a; train_batch_b] 8 8.
Definition no_batches : DataLoader Data := mkDataLoader [] 0 0.

(** One validation sample whose loss is 0.5, 0.6, 0.4 (and then 0.7) after
    the first, second, third (and fourth) epoch. *)
Definition valid_batch : Batch Data :=
  mkBatch ([9; 0.5; 0.6; 0.4; 0.7]%float, [0%Z]) 1 [0%Z].
Definition validation : DataLoader Data := mkDataLoader [valid_batch] 1 1.

(** A test set of three classes: a batch of one sample, then a batch of
    two; no sample of class 2. *)
Definition short_batch : Batch Data := mkBatch ([5]%float, [0%Z]) 1 [0%Z].
Definition full_batch : Batch Data := mkBatch ([1.5]%float, [0; 0]%Z) 2 [0; 1]%Z.
Definition short_then_full : DataLoader Data :=
  mkDataLoader [short_batch; full_batch] 3 3.
Definition full_then_short : DataLoader Data :=
  mkDataLoader [full_batch; short_batch] 3 3.

(** [epoch_count = 3], [patience = 1], batches of two. *)
Definition netparams : NetParams Data :=
  mkNetParams 3 1 2 false two_batches validation full_then_short.

(** A validation loss that only gets worse after the first epoch: 0.5,
    0.6, 0.7, 0.8, in a run of four epochs with a patience of two. *)
Definition rising_batch : Batch Data :=
  mkBatch ([9; 0.5; 0.6; 0.7; 0.8]%float, [0%Z]) 1 [0%Z].
Definition rising : NetParams Data :=
  mkNetParams 4 2 2 false two_batches (mkDataLoader [rising_batch] 1 1) full_then_short.

Definition no_training_data : NetParams Data :=
  mkNetParams 3 1 2 false no_batches validation full_then_short.

Definition short_first : NetParams Data :=
  mkNetParams 3 1 2 false two_batches validation short_then_full.

Definition working_ds : DatasetModel :=
  mkDatasetModel 3 ["plane"; "car"; "bird"]%string.

End Scenario.

(** Runs at the edges, on the same network. *)
Module Edge.
Import Scenario.

(** A test set without samples. *)
Definition empty_test : NetParams Data :=
  mkNetParams 3 1 2 false two_batches validation (mkDataLoader [] 0 0).

(** Testing sample by sample: batches of one. *)
Definition one_by_one : NetParams Data :=
  mkNetParams 3 1 1 false two_batches validation (mkDataLoader [short_batch] 1 1).

End Edge.

(** * Properties *)

(** ** The monad and the loops *)

Lemma bind_returns {W A B : Type} (m : Py W A) (k : A -> Py W B) w a w' :
  m w = Returns a w' -> (m ≫= k) w = k a w'.
Proof. intros H. py_unfold. now rewrite H. Qed.

Lemma bind_raises {W A B : Type} (m : Py W A) (k : A -> Py W B) w e w' :
  m w = Raises e w' -> (m ≫= k) w = Raises e w'.
Proof. intros H. py_unfold. now rewrite H. Qed.

Lemma bind_returns_inv {W A B : Type} (m : Py W A) (k : A -> Py W B) w b w2 :
  (m ≫= k) w = Returns b w2 ->
  exists a w1, m w = Returns a w1 /\ k a w1 = Returns b w2.
Proof.
  py_unfold. destruct (m w) as [a w1|e w1]; intros H; [|discriminate].
  now exists a, w1.
Qed.

(** One more element at the end of the iterable: the body runs on it when
    the loop got that far, and not at all after a [break]. *)
Lemma for_loop_snoc {W X S : Type} (body : X -> S -> Py W (Flow S Empty_set)) xs x s w :
  for_loop body (xs ++ [x]) s w =
  match for_loop body xs s w with
  | Returns (Continue s') w' => body x s' w'
  | Returns (Break s') w' => Returns (Break s') w'
  | Returns (Return r) _ => match r : Empty_set with end
  | Raises e w' => Raises e w'
  end.
Proof.
  revert s w. induction xs as [|y ys IH]; intros s w; simpl.
  - py_unfold. destruct (body x s w) as [[s'|s'|[]] w'|e w']; reflexivity.
  - py_unfold. destruct (body y s w) as [[s'|s'|[]] w'|e w']; try reflexivity.
    apply IH.
Qed.

(** ** The epoch tag of a checkpoint *)

Lemma decimal_value_zeros k s :
  decimal_value (String.append (string_of_list_ascii (repeat "0"%char k)) s)
  = decimal_value s.
Proof.
  unfold decimal_value. induction k as [|k IH]; simpl; [reflexivity|].
  destruct (NilEmpty.uint_of_string
              (String.append (string_of_list_ascii (repeat "0"%char k)) s)) as [d|];
    destruct (NilEmpty.uint_of_string s) as [d'|]; simpl in *; try congruence.
  injection IH as IH. f_equal. exact IH.
Qed.

Lemma decimal_value_digits d :
  decimal_value (NilZero.string_of_uint d) = Some (Nat.of_uint d).
Proof.
  unfold decimal_value. destruct d; try reflexivity;
    unfold NilZero.string_of_uint; now rewrite NilEmpty.usu.
Qed.

(** The tag denotes the epoch. *)
Lemma format_03d_value n : decimal_value (format_03d n) = Some n.
Proof.
  unfold format_03d. rewrite decimal_value_zeros, decimal_value_digits.
  f_equal. apply DecimalNat.Unsigned.of_to.
Qed.

Lemma string_length_append s1 s2 :
  String.length (String.append s1 s2) = String.length s1 + String.length s2.
Proof. induction s1 as [|c s1 IH]; simpl; [reflexivity|now rewrite IH]. Qed.

Lemma string_length_zeros k :
  String.length (string_of_list_ascii (repeat "0"%char k)) = k.
Proof. induction k as [|k IH]; simpl; [reflexivity|now rewrite IH]. Qed.

(** The tag is never shorter than three characters, and no longer than the
    digits of the epoch ask for. *)
Lemma format_03d_length n :
  String.length (format_03d n)
  = Nat.max 3 (String.length (NilZero.string_of_uint (Nat.to_uint n))).
Proof.
  unfold format_03d. rewrite string_length_append, string_length_zeros. lia.
Qed.

(** Up to epoch 999 the tag has exactly three characters. *)
Lemma format_03d_three n : n < 1000 -> String.length (format_03d n) = 3.
Proof.
  intros Hn.
  assert (forallb (fun k => String.length (format_03d k) =? 3) (seq 0 1000) = true)
    as Hall by (vm_compute; reflexivity).
  rewrite forallb_forall in Hall. apply Nat.eqb_eq, Hall, in_seq. lia.
Qed.

Section HarnessProofs.

Context {Params Data Output : Type}.
Variable forward : bool -> Params -> Data -> Output.
Variable criterion : Output -> list Z -> float.
Variable argmax : Output -> list Z.
Variable optimize : Params -> Data -> list Z -> Params.

Implicit Types (netparams : NetParams Data) (w : World Params) (b : Batch Data).

(** ** [train_model] *)

(** With at least one batch, [train_model] returns in the first pass through
    the loop body: one gradient step, on the first batch, is all it does. *)
Lemma train_model_first_batch netparams tmp tl epoch w b rest :
  batches (train_loader netparams) = b :: rest ->
  train_model forward criterion optimize netparams tmp tl epoch w =
  Returns
    (Some (tl + criterion (forward true (model w) (data b)) (target b)
                * float_of_nat (size0 b))%float)
    (mkWorld (optimize (model w) (data b) (target b)) true (model_on_gpu w)
       (train_loss_array w) (valid_loss_array w)
       (stdout w ++ [LTraining]) (checkpoints w)).
Proof.
  intros Hb. unfold train_model, enumerate. rewrite Hb. simpl.
  destruct (train_on_gpu netparams); reflexivity.
Qed.

(** With no batch the loop body never runs and the function ends without a
    [return]: the caller gets [None]. *)
Lemma train_model_no_batch netparams tmp tl epoch w :
  batches (train_loader netparams) = [] ->
  train_model forward criterion optimize netparams tmp tl epoch w =
  Returns None
    (mkWorld (model w) true (model_on_gpu w)
       (train_loss_array w) (valid_loss_array w)
       (stdout w ++ [LTraining]) (checkpoints w)).
Proof.
  intros Hb. unfold train_model, enumerate. rewrite Hb. reflexivity.
Qed.

(** ** [evaluate_model] *)

(** The validation loop changes nothing in the world; it returns the
    weighted sum of the batch losses. *)
Lemma validation_loop netparams bs k v w :
  for_each
    (fun '(batch_i, b) valid_loss =>
       let '(data, target) :=
         if train_on_gpu netparams then (cuda (data b), cuda (target b))
         else (data b, target b) in
       y ← model_call Params Data Output forward data;
       let loss := criterion y target in
       mret (valid_loss + loss * float_of_nat (size0 b))%float)
    (combine (seq k (length bs)) bs) v w
  = Returns (loss_sum forward criterion (training w) (model w) bs v) w.
Proof.
  revert k v. induction bs as [|b bs IH]; intros k v; simpl; [reflexivity|].
  py_unfold. unfold model_call, cuda. py_unfold.
  destruct (train_on_gpu netparams); apply IH.
Qed.

(** What [evaluate_model] does when it is handed a train loss and both
    sample counts are positive. *)
Lemma evaluate_model_returns netparams t v vmin epoch ni w :
  sampler_len (train_loader netparams) <> 0 ->
  sampler_len (validation_loader netparams) <> 0 ->
  let mt := mean_train_loss netparams t in
  let mv := mean_valid_loss forward criterion netparams (model w) v in
  evaluate_model forward criterion netparams (Some t) v vmin epoch ni w =
  Returns
    (if (mv <=? vmin)%float then mv else vmin)
    (mkWorld (model w) false (model_on_gpu w)
       (train_loss_array w ++ [mt]) (valid_loss_array w ++ [mv])
       (stdout w ++ [LEvaluation; LEpochStats epoch (n_epochs netparams) mt mv;
                     if (mv <=? vmin)%float then LSaving vmin mv
                     else LNoImprovement (ni + 1)])
       (if (mv <=? vmin)%float
        then checkpoints w ++ [(checkpoint_name epoch, model w)]
        else checkpoints w)).
Proof.
  intros Ht Hv mt mv. unfold evaluate_model.
  rewrite (bind_returns _ _ w tt (mkWorld (model w) (training w) (model_on_gpu w)
    (train_loss_array w) (valid_loss_array w) (stdout w ++ [LEvaluation]) (checkpoints w)))
    by reflexivity.
  rewrite (bind_returns _ _ _ tt (mkWorld (model w) false (model_on_gpu w)
    (train_loss_array w) (valid_loss_array w) (stdout w ++ [LEvaluation]) (checkpoints w)))
    by reflexivity.
  unfold enumerate.
  erewrite bind_returns by apply validation_loop.
  unfold truediv.
  destruct (Nat.eqb_spec (sampler_len (train_loader netparams)) 0) as [|_]; [done|].
  destruct (Nat.eqb_spec (sampler_len (validation_loader netparams)) 0) as [|_]; [done|].
  py_unfold. unfold print, train_loss_array_append, valid_loss_array_append, torch_save.
  py_unfold. simpl.
  fold (mean_valid_loss forward criterion netparams (model w) v). fold mv. fold (mean_train_loss netparams t). fold mt.
  destruct (mv <=? vmin)%float; simpl; rewrite <- !app_assoc; reflexivity.
Qed.

(** Without a train loss ([train_model] returned [None]) the division
    raises [TypeError]. *)
Lemma evaluate_model_none netparams v vmin epoch ni w :
  exists w', evaluate_model forward criterion netparams None v vmin epoch ni w
             = Raises TypeError w'.
Proof.
  unfold evaluate_model, enumerate. eexists.
  erewrite bind_returns by reflexivity.
  erewrite bind_returns by reflexivity.
  erewrite bind_returns by apply validation_loop.
  reflexivity.
Qed.

(** A sample count of zero raises [ZeroDivisionError]. *)
Lemma evaluate_model_zero_count netparams t v vmin epoch ni w :
  sampler_len (train_loader netparams) = 0 \/
  sampler_len (validation_loader netparams) = 0 ->
  exists w', evaluate_model forward criterion netparams (Some t) v vmin epoch ni w
             = Raises ZeroDivisionError w'.
Proof.
  intros H. unfold evaluate_model, enumerate. eexists.
  erewrite bind_returns by reflexivity.
  erewrite bind_returns by reflexivity.
  erewrite bind_returns by apply validation_loop.
  unfold truediv.
  destruct (Nat.eqb_spec (sampler_len (train_loader netparams)) 0) as [|Ht];
    [reflexivity|].
  destruct (Nat.eqb_spec (sampler_len (validation_loader netparams)) 0) as [|Hv];
    [reflexivity|].
  exfalso. destruct H; contradiction.
Qed.

(** ** [train_loop] *)

Lemma trainings_app (l1 l2 : list Line) :
  trainings (l1 ++ l2) = trainings l1 + trainings l2.
Proof. unfold trainings. now rewrite List.filter_app, length_app. Qed.

(** One pass through the body of the epoch loop that does not raise.
    Either the early-stopping test fired and nothing happened, or the epoch
    ran: one call of [train_model], one entry more in each history, and a
    best validation loss that stayed or went down. *)
Lemma train_loop_body_returns netparams ni epoch vmin w f w' :
  train_loop_body forward criterion optimize netparams ni epoch vmin w = Returns f w' ->
  (max_no_improve_epochs netparams <= ni /\ f = Break vmin /\ w' = w) \/
  (ni < max_no_improve_epochs netparams /\
   exists vmin',
     f = Continue vmin' /\
     (vmin' = vmin \/
      ((vmin' <=? vmin)%float = true /\ last (valid_loss_array w') = Some vmin')) /\
     length (train_loss_array w') = S (length (train_loss_array w)) /\
     length (valid_loss_array w') = S (length (valid_loss_array w)) /\
     trainings (stdout w') = S (trainings (stdout w))).
Proof.
  unfold train_loop_body.
  destruct (Nat.leb_spec (max_no_improve_epochs netparams) ni) as [Hstop|Hrun].
  { intros [= <- <-]. left. done. }
  intros H. right. split; [done|].
  destruct (batches (train_loader netparams)) as [|b rest] eqn:Hb.
  { erewrite bind_returns in H by (apply train_model_no_batch; exact Hb).
    destruct (evaluate_model_none netparams 0%float vmin epoch ni
                (mkWorld (model w) true (model_on_gpu w) (train_loss_array w)
                   (valid_loss_array w) (stdout w ++ [LTraining]) (checkpoints w)))
      as [w1 Hw1].
    erewrite bind_raises in H by exact Hw1. discriminate. }
  erewrite bind_returns in H by (eapply train_model_first_batch; exact Hb).
  destruct (Nat.eq_dec (sampler_len (train_loader netparams)) 0) as [Ht|Ht].
  { edestruct evaluate_model_zero_count as [w1 Hw1]; [left; exact Ht|].
    erewrite bind_raises in H by exact Hw1. discriminate. }
  destruct (Nat.eq_dec (sampler_len (validation_loader netparams)) 0) as [Hv|Hv].
  { edestruct evaluate_model_zero_count as [w1 Hw1]; [right; exact Hv|].
    erewrite bind_raises in H by exact Hw1. discriminate. }
  erewrite bind_returns in H by (apply evaluate_model_returns; assumption).
  injection H as <- <-. simpl.
  eexists. split; [reflexivity|].
  split.
  { destruct (_ <=? vmin)%float eqn:Hle; [right|left; reflexivity].
    split; [exact Hle|apply last_snoc]. }
  rewrite !length_app, !trainings_app. simpl.
  repeat split; try lia.
  destruct (_ <=? vmin)%float; unfold trainings; simpl; lia.
Qed.

(** The epoch loop, from any locals and any world: the histories grow by one
    entry per epoch run, and the number of epochs run is all or nothing. *)
Lemma epoch_loop_returns netparams ni epochs vmin w f w' :
  for_loop (train_loop_body forward criterion optimize netparams ni) epochs vmin w
  = Returns f w' ->
  let ran := if (max_no_improve_epochs netparams <=? ni)%nat then 0 else length epochs in
  length (train_loss_array w') = length (train_loss_array w) + ran /\
  length (valid_loss_array w') = length (valid_loss_array w) + ran /\
  trainings (stdout w') = trainings (stdout w) + ran.
Proof.
  revert vmin w. induction epochs as [|e es IH]; intros vmin w; simpl.
  { intros [= <- <-]. destruct (_ <=? _)%nat; simpl; lia. }
  intros H. apply bind_returns_inv in H as (f1 & w1 & Hbody & Hrest).
  apply train_loop_body_returns in Hbody
    as [(Hstop & -> & ->)|(Hrun & vmin' & -> & _ & Ht & Hv & Hs)].
  - injection Hrest as <- <-.
    destruct (Nat.leb_spec (max_no_improve_epochs netparams) ni); simpl; lia.
  - apply IH in Hrest. rewrite Ht, Hv, Hs in Hrest.
    destruct (Nat.leb_spec (max_no_improve_epochs netparams) ni); simpl in *; lia.
Qed.

(** When the loop cannot raise: the early-stopping test fires, or there is
    a training batch and both sample counts are positive. *)
Lemma train_loop_body_total netparams ni epoch vmin w :
  max_no_improve_epochs netparams <= ni \/
  (batches (train_loader netparams) <> [] /\
   sampler_len (train_loader netparams) <> 0 /\
   sampler_len (validation_loader netparams) <> 0) ->
  exists f w',
    train_loop_body forward criterion optimize netparams ni epoch vmin w = Returns f w'.
Proof.
  intros Hok. unfold train_loop_body.
  destruct (Nat.leb_spec (max_no_improve_epochs netparams) ni) as [Hstop|Hrun].
  { now eexists _, _. }
  destruct Hok as [Hstop|(Hb & Ht & Hv)]; [lia|].
  destruct (batches (train_loader netparams)) as [|b rest] eqn:Eb; [done|].
  erewrite bind_returns by (eapply train_model_first_batch; exact Eb).
  erewrite bind_returns by (apply evaluate_model_returns; assumption).
  now eexists _, _.
Qed.

Lemma epoch_loop_total netparams ni epochs vmin w :
  max_no_improve_epochs netparams <= ni \/
  (batches (train_loader netparams) <> [] /\
   sampler_len (train_loader netparams) <> 0 /\
   sampler_len (validation_loader netparams) <> 0) ->
  exists f w',
    for_loop (train_loop_body forward criterion optimize netparams ni) epochs vmin w
    = Returns f w'.
Proof.
  intros Hok. revert vmin w. induction epochs as [|e es IH]; intros vmin w; simpl.
  { now eexists _, _. }
  destruct (train_loop_body_total netparams ni e vmin w Hok) as (f1 & w1 & Hbody).
  erewrite bind_returns by exact Hbody.
  destruct f1 as [s|s|[]]; [apply IH|now eexists _, _].
Qed.

(** C10: the two histories [train_loop] returns have the same length, the
    number of epochs that were run (one call of [train_model] each); a run
    of zero epochs returns two empty lists.  The run returns, rather than
    raises, as soon as early stopping fires at once or the training loader
    has a batch and both sample counts are positive; the number of epochs
    run is then [n_epochs] or zero. *)
Theorem train_loop_histories netparams ni w :
  (max_no_improve_epochs netparams <= ni \/
   (batches (train_loader netparams) <> [] /\
    sampler_len (train_loader netparams) <> 0 /\
    sampler_len (validation_loader netparams) <> 0) ->
   exists tl vl w',
     train_loop forward criterion optimize netparams ni w = Returns (tl, vl) w') /\
  (forall tl vl w',
     train_loop forward criterion optimize netparams ni w = Returns (tl, vl) w' ->
     length tl = length vl /\
     trainings (stdout w') = trainings (stdout w) + length tl /\
     length tl = (if (max_no_improve_epochs netparams <=? ni)%nat then 0
                  else n_epochs netparams) /\
     (trainings (stdout w') = trainings (stdout w) -> tl = [] /\ vl = [])).
Proof.
  unfold train_loop, train_loop_epochs. split.
  - intros Hok.
    destruct (epoch_loop_total netparams ni (seq 1 (n_epochs netparams)) infinity
                (mkWorld (model w) (training w) (model_on_gpu w) [] []
                   (stdout w) (checkpoints w)) Hok) as (f & w' & Hloop).
    erewrite bind_returns;
      [|erewrite bind_returns by reflexivity; exact Hloop].
    destruct f as [s|s|[]]; now eexists _, _, _.
  - intros tl vl w' H.
    apply bind_returns_inv in H as (f & w1 & Hloop & Hret).
    apply bind_returns_inv in Hloop as ([] & w0 & [= <-] & Hloop).
    apply epoch_loop_returns in Hloop as (Ht & Hv & Hs). simpl in Ht, Hv, Hs.
    rewrite length_seq in Ht, Hv, Hs.
    assert (tl = train_loss_array w1 /\ vl = valid_loss_array w1 /\ w' = w1)
      as (-> & -> & ->).
    { destruct f as [s|s|[]]; py_unfold; now injection Hret as <- <- <-. }
    repeat split; try lia.
    + apply length_zero_iff_nil. lia.
    + apply length_zero_iff_nil. lia.
Qed.

(** C4: [valid_loss_min] starts at [+infinity], and from the locals after
    [k] epochs to the locals after [k + 1] it stays the same or is replaced
    by a value that is [<=] it, which is then the validation loss recorded
    last.  (The locals after [k] epochs are those of the loop over
    [range(1, k + 1)], the first [k] iterations of any longer run.) *)
Theorem valid_loss_min_non_increasing netparams ni w :
  (exists w0,
     train_loop_epochs forward criterion optimize netparams ni [] w
     = Returns (Continue infinity) w0) /\
  (forall k f1 w1 f2 w2,
     train_loop_epochs forward criterion optimize netparams ni (seq 1 k) w
     = Returns f1 w1 ->
     train_loop_epochs forward criterion optimize netparams ni (seq 1 (S k)) w
     = Returns f2 w2 ->
     flow_locals f2 = flow_locals f1 \/
     ((flow_locals f2 <=? flow_locals f1)%float = true /\
      last (valid_loss_array w2) = Some (flow_locals f2))).
Proof.
  split; [now eexists|].
  intros k f1 w1 f2 w2 H1 H2. unfold train_loop_epochs in *.
  apply bind_returns_inv in H1 as ([] & wa & [= <-] & H1).
  apply bind_returns_inv in H2 as ([] & wb & [= <-] & H2).
  rewrite seq_S, for_loop_snoc, H1 in H2.
  destruct f1 as [v1|v1|[]]; simpl.
  - apply train_loop_body_returns in H2
      as [(_ & -> & _)|(_ & v2 & -> & Hv & _)]; [now left|exact Hv].
  - injection H2 as <- <-. now left.
Qed.

(** ** The evaluator's bookkeeping *)

(** C9: [evaluate_model] divides the train-loss sum by the number of samples
    of the training source and the validation-loss sum by the number of
    samples of the validation source (the lengths of the samplers, whatever
    the number of batches), and appends the two means to the histories. *)
Theorem evaluate_model_records_means netparams t v vmin epoch ni w :
  sampler_len (train_loader netparams) <> 0 ->
  sampler_len (validation_loader netparams) <> 0 ->
  exists vmin' w',
    evaluate_model forward criterion netparams (Some t) v vmin epoch ni w
    = Returns vmin' w' /\
    train_loss_array w'
    = train_loss_array w
      ++ [(t / float_of_nat (sampler_len (train_loader netparams)))%float] /\
    valid_loss_array w'
    = valid_loss_array w
      ++ [(loss_sum forward criterion false (model w)
             (batches (validation_loader netparams)) v
           / float_of_nat (sampler_len (validation_loader netparams)))%float].
Proof.
  intros Ht Hv. eexists _, _. split.
  - apply evaluate_model_returns; assumption.
  - split; reflexivity.
Qed.

(** C5: [evaluate_model] saves the parameters exactly when the mean
    validation loss of the epoch is [<=] the best so far, and then once,
    under the name made of the epoch's tag and [model_cifar.pt]; the tag
    denotes the epoch, has at least three characters, and exactly three up
    to epoch 999. *)
Theorem checkpoint_iff_improved netparams t v vmin epoch ni w :
  sampler_len (train_loader netparams) <> 0 ->
  sampler_len (validation_loader netparams) <> 0 ->
  let mv := mean_valid_loss forward criterion netparams (model w) v in
  exists vmin' w',
    evaluate_model forward criterion netparams (Some t) v vmin epoch ni w
    = Returns vmin' w' /\
    ((mv <=? vmin)%float = true <->
     checkpoints w'
     = checkpoints w ++ [(String.append (format_03d epoch) "model_cifar.pt", model w)]) /\
    ((mv <=? vmin)%float = false <-> checkpoints w' = checkpoints w) /\
    decimal_value (format_03d epoch) = Some epoch /\
    3 <= String.length (format_03d epoch) /\
    (epoch < 1000 -> String.length (format_03d epoch) = 3).
Proof.
  intros Ht Hv mv. eexists _, _. split.
  { apply evaluate_model_returns; assumption. }
  fold mv. simpl.
  assert (forall (l : list (string * Params)) x, l ++ [x] <> l) as Hneq.
  { intros l x H. apply (f_equal length) in H. rewrite length_app in H. simpl in H. lia. }
  repeat split.
  - intros ->. reflexivity.
  - destruct (mv <=? vmin)%float; [reflexivity|].
    intros H. symmetry in H. now apply Hneq in H.
  - intros ->. reflexivity.
  - destruct (mv <=? vmin)%float; [|reflexivity].
    intros H. now apply Hneq in H.
  - apply format_03d_value.
  - rewrite format_03d_length. lia.
  - apply format_03d_three.
Qed.

(** ** [test_model] *)

Lemma sum_list_insert (xs : list nat) k x y :
  xs !! k = Some x -> sum_list (<[k := y]> xs) + x = sum_list xs + y.
Proof.
  revert k. induction xs as [|a xs IH]; intros [|k] H; simpl in *; try done.
  - injection H as ->. lia.
  - specialize (IH k H). lia.
Qed.

(** [xs[label] += v], for a [v] that leaves the world alone. *)
Lemma list_iadd_returns {W : Type} (xs : list nat) label (v : Py W nat)
    (w : W) xs' (w' : W) :
  (forall y (w1 : W), v w = Returns y w1 -> w1 = w) ->
  list_iadd xs label v w = Returns xs' w' ->
  w' = w /\ length xs' = length xs /\
  exists y, v w = Returns y w /\ sum_list xs' = sum_list xs + y.
Proof.
  intros Hpure. unfold list_iadd, list_get.
  destruct (py_index (length xs) label) as [k|]; [|discriminate].
  destruct (xs !! k) as [x|] eqn:Hk; [|discriminate].
  py_unfold. destruct (v w) as [y w1|e w1] eqn:Hv; [|discriminate].
  intros [= <- <-]. rewrite (Hpure y w1 eq_refl). rewrite length_insert.
  repeat split. exists y. split; [reflexivity|].
  pose proof (sum_list_insert xs k x (x + y) Hk). lia.
Qed.

(** The loop over the samples of a batch: every pass counts one sample. *)
Lemma count_loop_returns (tgt : list Z) (correct : Squeezed) (idx : list nat)
    (cc ct cc' ct' : list nat) w w' :
  for_each
    (fun i '(class_correct, class_total) =>
       label ← list_get tgt i;
       class_correct ← list_iadd class_correct label
                         (hit ← squeezed_get correct i;
                          mret (if hit : bool then 1 else 0));
       class_total ← list_iadd class_total label (mret 1);
       mret (class_correct, class_total))
    idx (cc, ct) w
  = Returns (cc', ct') w' ->
  w' = w /\ length cc' = length cc /\ length ct' = length ct /\
  sum_list ct' = sum_list ct + length idx.
Proof.
  revert cc ct w. induction idx as [|i idx IH]; intros cc ct w; simpl.
  { intros [= <- <- <-]. repeat split; lia. }
  intros H. apply bind_returns_inv in H as ([cc1 ct1] & w1 & Hbody & Hrest).
  apply bind_returns_inv in Hbody as (label & wa & Hlabel & Hbody).
  assert (wa = w) as ->.
  { unfold list_get in Hlabel. destruct (tgt !! i); [|discriminate].
    now injection Hlabel as _ <-. }
  apply bind_returns_inv in Hbody as (cc2 & wb & Hcc & Hbody).
  apply list_iadd_returns in Hcc as (-> & Hlc & _).
  2:{ intros y wc Hy. apply bind_returns_inv in Hy as (hit & wd & Hhit & Hy).
      injection Hy as _ <-. unfold squeezed_get, list_get in Hhit.
      destruct correct as [|bs]; [discriminate|].
      destruct (bs !! i); [|discriminate]. now injection Hhit as _ <-. }
  apply bind_returns_inv in Hbody as (ct2 & wc & Hct & Hbody).
  apply list_iadd_returns in Hct as (-> & Hlt & y & Hy & Hsum).
  2:{ now intros y wd [= _ <-]. }
  injection Hy as <-. injection Hbody as <- <- <-.
  apply IH in Hrest as (-> & Hlc' & Hlt' & Hsum'). repeat split; lia.
Qed.

(** One pass through the body of the test loop that does not raise: a batch
    shorter than [batch_size] breaks out of the loop; any other batch adds
    its weighted loss and counts [batch_size] samples. *)
Lemma test_loop_body_returns netparams b loss (cc ct : list nat) w f w' :
  test_loop_body forward criterion argmax netparams b (loss, cc, ct) w = Returns f w' ->
  w' = w /\
  ((length (target b) < batch_size netparams /\ f = Break (loss, cc, ct)) \/
   (batch_size netparams <= length (target b) /\
    exists cc' ct',
      f = Continue
            ((loss + criterion (forward (training w) (model w) (data b)) (target b)
                     * float_of_nat (size0 b))%float, cc', ct') /\
      length cc' = length cc /\ length ct' = length ct /\
      sum_list ct' = sum_list ct + batch_size netparams)).
Proof.
  unfold test_loop_body.
  destruct (Nat.ltb_spec (length (target b)) (batch_size netparams)) as [Hshort|Hfull].
  { intros [= <- <-]. split; [reflexivity|]. left. done. }
  intros H.
  assert (forall (A : Type) (x : A), cuda x = x) as Hcuda by reflexivity.
  destruct (train_on_gpu netparams); rewrite ?Hcuda in H.
  all: apply bind_returns_inv in H as (output & wa & Hout & H);
    injection Hout as <- <-;
    apply bind_returns_inv in H as (correct & wb & Hcorrect & H);
    assert (wb = w) as -> by
      (unfold tensor_eq in Hcorrect; destruct (_ =? _)%nat; [|discriminate];
       now injection Hcorrect as _ <-);
    apply bind_returns_inv in H as ([cc' ct'] & wc & Hcount & H);
    apply count_loop_returns in Hcount as (-> & Hlc & Hlt & Hsum);
    injection H as <- <-;
    (split; [reflexivity|]); right; (split; [exact Hfull|]);
    exists cc', ct'; rewrite length_seq in Hsum; simpl; done.
Qed.

Lemma py_index_in_range len label :
  (- Z.of_nat len <= label < Z.of_nat len)%Z ->
  exists k, py_index len label = Some k /\ k < len.
Proof.
  intros Hl. unfold py_index.
  destruct (Z.leb_spec 0 label); destruct (Z.ltb_spec label (Z.of_nat len)); simpl;
    try lia.
  - eexists. split; [reflexivity|lia].
  - destruct (Z.leb_spec (- Z.of_nat len) label); destruct (Z.ltb_spec label 0); simpl;
      try lia.
    eexists. split; [reflexivity|lia].
Qed.

Lemma list_iadd_total {W : Type} (xs : list nat) label (v : Py W nat) (w : W) y :
  (- Z.of_nat (length xs) <= label < Z.of_nat (length xs))%Z ->
  v w = Returns y w ->
  exists xs', list_iadd xs label v w = Returns xs' w /\ length xs' = length xs.
Proof.
  intros Hl Hv. unfold list_iadd, list_get.
  destruct (py_index_in_range _ _ Hl) as (k & -> & Hk).
  apply lookup_lt_is_Some_2 in Hk as [x Hx]. rewrite Hx.
  py_unfold. rewrite Hv. eexists. split; [reflexivity|apply length_insert].
Qed.

(** The loop over the samples of a batch returns when every label it reads
    indexes the counters and every result it reads is there. *)
Lemma count_loop_total (tgt : list Z) (correct : Squeezed) (idx : list nat)
    (n : nat) (cc ct : list nat) w :
  length cc = n -> length ct = n ->
  (forall i, i ∈ idx ->
     exists label hit,
       tgt !! i = Some label /\
       (- Z.of_nat n <= label < Z.of_nat n)%Z /\
       squeezed_get correct i w = Returns hit w) ->
  exists r,
    for_each
      (fun i '(class_correct, class_total) =>
         label ← list_get tgt i;
         class_correct ← list_iadd class_correct label
                           (hit ← squeezed_get correct i;
                            mret (if hit : bool then 1 else 0));
         class_total ← list_iadd class_total label (mret 1);
         mret (class_correct, class_total))
      idx (cc, ct) w
    = Returns r w.
Proof.
  revert cc ct. induction idx as [|i idx IH]; intros cc ct Hc Ht Hidx; simpl.
  { now eexists. }
  destruct (Hidx i) as (label & hit & Hlabel & Hrange & Hhit); [constructor|].
  destruct (list_iadd_total cc label
              (hit ← squeezed_get correct i; mret (if hit : bool then 1 else 0))
              w (if hit then 1 else 0)) as (cc' & Hcc & Hlc).
  { now rewrite Hc. }
  { erewrite bind_returns by exact Hhit. reflexivity. }
  destruct (list_iadd_total ct label (mret 1) w 1) as (ct' & Hct & Hlt).
  { now rewrite Ht. }
  { reflexivity. }
  erewrite bind_returns; cycle 1.
  { erewrite bind_returns by (unfold list_get; rewrite Hlabel; reflexivity).
    erewrite bind_returns by exact Hcc.
    erewrite bind_returns by exact Hct.
    reflexivity. }
  apply IH; [congruence|congruence|].
  intros k Hk. apply Hidx. now constructor.
Qed.

(** The test loop, from any locals: it leaves the world alone, and what it
    accumulates comes from the batches in front of the first short one. *)
Lemma test_loop_returns netparams bs loss (cc ct : list nat) w f w' :
  for_loop (test_loop_body forward criterion argmax netparams) bs (loss, cc, ct) w
  = Returns f w' ->
  let kept := full_prefix (batch_size netparams) bs in
  w' = w /\
  exists cc' ct',
    flow_locals f
    = (loss_sum forward criterion (training w) (model w) kept loss, cc', ct') /\
    length cc' = length cc /\ length ct' = length ct /\
    sum_list ct' = sum_list ct + batch_size netparams * length kept.
Proof.
  revert loss cc ct. induction bs as [|b bs IH]; intros loss cc ct; simpl.
  { intros [= <- <-]. split; [reflexivity|]. exists cc, ct. simpl. repeat split; lia. }
  intros H. apply bind_returns_inv in H as (f1 & w1 & Hbody & Hrest).
  apply test_loop_body_returns in Hbody
    as (-> & [(Hshort & ->)|(Hfull & cc1 & ct1 & -> & Hlc & Hlt & Hsum)]).
  - injection Hrest as <- <-.
    destruct (Nat.ltb_spec (length (target b)) (batch_size netparams)); [|lia].
    split; [reflexivity|]. exists cc, ct. simpl. repeat split; lia.
  - apply IH in Hrest as (-> & cc2 & ct2 & Hf & Hlc2 & Hlt2 & Hsum2).
    destruct (Nat.ltb_spec (length (target b)) (batch_size netparams)); [lia|].
    split; [reflexivity|]. exists cc2, ct2. simpl. repeat split; try lia.
    exact Hf.
Qed.

(** A short batch breaks out of the loop before anything else happens. *)
Lemma test_loop_body_short netparams b (s : TestLocals) w :
  length (target b) < batch_size netparams ->
  test_loop_body forward criterion argmax netparams b s w = Returns (Break s) w.
Proof.
  intros Hshort. unfold test_loop_body. destruct s as [[loss cc] ct].
  destruct (Nat.ltb_spec (length (target b)) (batch_size netparams)); [|lia].
  reflexivity.
Qed.

(** The batches from the first short one on play no part: the loop over the
    batches in front of it ends with the same locals, or raises alike. *)
Lemma for_loop_full_prefix (n : nat)
    (body : Batch Data -> TestLocals -> Py (World Params) (Flow TestLocals Empty_set)) :
  (forall b s w, length (target b) < n -> body b s w = Returns (Break s) w) ->
  forall bs s w,
    (for_loop body (full_prefix n bs) s
     ≫= fun r => match r with
                 | Continue locals | Break locals => mret locals
                 | Return r => match r : Empty_set with end
                 end) w
    = (for_loop body bs s
       ≫= fun r => match r with
                   | Continue locals | Break locals => mret locals
                   | Return r => match r : Empty_set with end
                   end) w.
Proof.
  intros Hshort bs. induction bs as [|b bs IH]; intros s w; simpl; [reflexivity|].
  destruct (Nat.ltb_spec (length (target b)) n) as [Hlt|Hge].
  - simpl. unfold mbind, Py_bind, py_bind. now rewrite Hshort.
  - simpl. unfold mbind, Py_bind, py_bind in *.
    destruct (body b s w) as [[s'|s'|[]] w1|e w1]; try reflexivity.
    apply IH.
Qed.

Lemma test_pass_full_prefix netparams ds w :
  test_pass forward criterion argmax
    (with_test_batches netparams
       (full_prefix (batch_size netparams) (batches (test_loader netparams)))) ds w
  = test_pass forward criterion argmax netparams ds w.
Proof.
  unfold test_pass, with_test_batches. cbn [batch_size train_on_gpu test_loader batches].
  change (test_loop_body forward criterion argmax (mkNetParams _ _ _ _ _ _ _))
    with (test_loop_body forward criterion argmax netparams).
  unfold mbind at 1 2 4 5, Py_bind, py_bind at 1 2 4 5.
  destruct (model_set_mode false w) as [[] w1|e w1]; [|reflexivity].
  destruct ((if train_on_gpu netparams then model_cuda Params else mret ()) w1)
    as [[] w2|e w2]; [|reflexivity].
  apply (for_loop_full_prefix (batch_size netparams)).
  intros b s w0. apply test_loop_body_short.
Qed.

Lemma test_model_full_prefix netparams ds w :
  test_model forward criterion argmax
    (with_test_batches netparams
       (full_prefix (batch_size netparams) (batches (test_loader netparams)))) ds w
  = test_model forward criterion argmax netparams ds w.
Proof.
  unfold test_model. unfold mbind at 1 6, Py_bind, py_bind at 1 6.
  rewrite test_pass_full_prefix. reflexivity.
Qed.

(** A test pass that does not raise prints nothing and leaves the
    parameters alone; its counters have one cell per class. *)
Lemma test_pass_returns netparams ds w loss (cc ct : list nat) w' :
  test_pass forward criterion argmax netparams ds w = Returns (loss, cc, ct) w' ->
  let kept := full_prefix (batch_size netparams) (batches (test_loader netparams)) in
  stdout w' = stdout w /\ model w' = model w /\
  loss = loss_sum forward criterion false (model w) kept 0 /\
  length cc = class_num ds /\ length ct = class_num ds /\
  sum_list ct = batch_size netparams * length kept.
Proof.
  unfold test_pass. intros H.
  apply bind_returns_inv in H as ([] & wa & [= <-] & H).
  apply bind_returns_inv in H as ([] & wb & Hgpu & H).
  assert (stdout wb = stdout w /\ model wb = model w /\ training wb = false)
    as (Hout & Hmodel & Hmode).
  { destruct (train_on_gpu netparams); injection Hgpu as <-; done. }
  apply bind_returns_inv in H as (f & wc & Hloop & H).
  apply test_loop_returns in Hloop as (-> & cc' & ct' & Hf & Hlc & Hlt & Hsum).
  rewrite length_replicate in Hlc, Hlt. rewrite sum_list_replicate in Hsum.
  rewrite Hmode, Hmodel in Hf.
  assert (flow_locals f = (loss, cc, ct) /\ w' = wb) as (Hloc & ->).
  { destruct f as [s|s|[]]; now injection H as <- <-. }
  rewrite Hloc in Hf. injection Hf as -> -> ->.
  repeat split; try done. lia.
Qed.

Lemma squeeze_vector (bs : list bool) : length bs <> 1 -> squeeze bs = Vector1d bs.
Proof. destruct bs as [|b [|b' bs]]; simpl; [reflexivity|lia|reflexivity]. Qed.

(** A well-formed batch of full size goes through the loop body. *)
Lemma test_loop_body_total netparams ds b loss (cc ct : list nat) w :
  training w = false ->
  length cc = class_num ds -> length ct = class_num ds ->
  batch_size netparams <= length (target b) ->
  batch_well_formed forward argmax netparams ds (model w) b ->
  exists f, test_loop_body forward criterion argmax netparams b (loss, cc, ct) w
            = Returns f w.
Proof.
  intros Hmode Hc Ht Hfull (Hpred & Hone & Hlabels).
  set (correct_tensor :=
         zip_with (fun p t => bool_decide (p = t))
           (argmax (forward false (model w) (data b))) (target b)).
  assert (length correct_tensor = length (target b)) as Hlen.
  { unfold correct_tensor. rewrite length_zip_with. lia. }
  destruct (count_loop_total (target b) (squeeze correct_tensor)
              (seq 0 (batch_size netparams)) (class_num ds) cc ct w Hc Ht)
    as (r & Hcount).
  { intros i Hi. apply elem_of_seq in Hi.
    destruct (lookup_lt_is_Some_2 (target b) i) as [label Hl]; [lia|].
    destruct (lookup_lt_is_Some_2 correct_tensor i) as [hit Hh]; [lia|].
    exists label, hit. split; [exact Hl|]. split; [apply (Hlabels i); [lia|exact Hl]|].
    rewrite squeeze_vector by (destruct Hone; lia).
    unfold squeezed_get, list_get. now rewrite Hh. }
  unfold test_loop_body.
  destruct (Nat.ltb_spec (length (target b)) (batch_size netparams)); [lia|].
  assert (forall (A : Type) (x : A), cuda x = x) as Hcuda by reflexivity.
  assert ((if train_on_gpu netparams then (cuda (data b), cuda (target b))
           else (data b, target b)) = (data b, target b)) as ->.
  { destruct (train_on_gpu netparams); now rewrite ?Hcuda. }
  erewrite bind_returns by (unfold model_call, gets; rewrite Hmode; reflexivity).
  erewrite bind_returns
    by (unfold tensor_eq; rewrite Hpred, Nat.eqb_refl; reflexivity).
  fold correct_tensor. erewrite bind_returns by exact Hcount.
  now eexists.
Qed.

(** The test loop returns when the batches in front of the first short one
    are well formed. *)
Lemma test_loop_total netparams ds bs loss (cc ct : list nat) w :
  training w = false ->
  length cc = class_num ds -> length ct = class_num ds ->
  Forall (batch_well_formed forward argmax netparams ds (model w))
         (full_prefix (batch_size netparams) bs) ->
  exists f,
    for_loop (test_loop_body forward criterion argmax netparams) bs (loss, cc, ct) w
    = Returns f w.
Proof.
  intros Hmode. revert loss cc ct.
  induction bs as [|b bs IH]; intros loss cc ct Hc Ht Hall.
  { now eexists. }
  cbn [for_loop]. cbn [full_prefix] in Hall.
  destruct (Nat.ltb_spec (length (target b)) (batch_size netparams)) as [Hshort|Hfull].
  { erewrite bind_returns by (apply test_loop_body_short; exact Hshort). now eexists. }
  apply Forall_cons in Hall as [Hb Hall].
  destruct (test_loop_body_total netparams ds b loss cc ct w Hmode Hc Ht Hfull Hb)
    as (f & Hbody).
  erewrite bind_returns by exact Hbody.
  apply test_loop_body_returns in Hbody
    as (_ & [(Hlt & _)|(_ & cc' & ct' & -> & Hlc & Hlt & _)]); [lia|].
  apply IH; [congruence|congruence|exact Hall].
Qed.

Lemma test_pass_total netparams ds w :
  Forall (batch_well_formed forward argmax netparams ds (model w))
         (full_prefix (batch_size netparams) (batches (test_loader netparams))) ->
  exists loss cc ct w',
    test_pass forward criterion argmax netparams ds w = Returns (loss, cc, ct) w'.
Proof.
  intros Hall. unfold test_pass.
  erewrite bind_returns by reflexivity.
  set (wa := mkWorld (model w) false (model_on_gpu w) (train_loss_array w)
               (valid_loss_array w) (stdout w) (checkpoints w)).
  assert (exists wb, (if train_on_gpu netparams then model_cuda Params else mret tt) wa
                     = Returns tt wb /\ training wb = false /\ model wb = model w)
    as (wb & Hgpu & Hmode & Hmodel).
  { destruct (train_on_gpu netparams); eexists; (split; [reflexivity|done]). }
  erewrite bind_returns by exact Hgpu.
  destruct (test_loop_total netparams ds (batches (test_loader netparams)) 0%float
              (replicate (class_num ds) 0) (replicate (class_num ds) 0) wb Hmode)
    as (f & Hloop).
  { apply length_replicate. }
  { apply length_replicate. }
  { now rewrite Hmodel. }
  erewrite bind_returns by exact Hloop.
  destruct f as [[[loss cc] ct]|[[loss cc] ct]|[]]; now eexists _, _, _, _.
Qed.

Lemma print_emit (l : Line) w : print l w = Returns tt (emit [l] w).
Proof. reflexivity. Qed.

Lemma emit_emit (l1 l2 : list Line) w : emit l2 (emit l1 w) = emit (l1 ++ l2) w.
Proof. unfold emit. simpl. now rewrite app_assoc. Qed.

(** The line printed for one class is the one the specification asks for:
    the test [class_total[i] > 0] fails exactly on a count of zero. *)
Lemma report_class_line ds (cc ct : list nat) i name correct total w :
  classes ds !! i = Some name -> cc !! i = Some correct -> ct !! i = Some total ->
  report_class ds cc ct i w = Returns tt (emit [class_line_per_spec name correct total] w).
Proof.
  intros Hn Hc Ht. unfold report_class, list_get, class_line_per_spec.
  rewrite Hn, Hc, Ht. py_unfold.
  destruct total as [|t]; reflexivity.
Qed.

(** The loop over the classes prints one such line per class, in order. *)
Lemma report_loop ds (cc ct : list nat) (idx : list nat) w :
  (forall i, i ∈ idx ->
             i < length (classes ds) /\ i < length cc /\ i < length ct) ->
  exists lines,
    for_each (fun i _ => report_class ds cc ct i) idx tt w = Returns tt (emit lines w) /\
    length lines = length idx /\
    forall j i, idx !! j = Some i ->
      exists name correct total,
        classes ds !! i = Some name /\ cc !! i = Some correct /\
        ct !! i = Some total /\
        lines !! j = Some (class_line_per_spec name correct total).
Proof.
  revert w. induction idx as [|i idx IH]; intros w Hidx.
  { exists []. split; [|split; [reflexivity|intros j i [=]]].
    simpl. unfold emit. rewrite app_nil_r. now destruct w. }
  destruct (Hidx i) as (Hn & Hc & Ht); [left|].
  apply lookup_lt_is_Some_2 in Hn as [name Hn].
  apply lookup_lt_is_Some_2 in Hc as [correct Hc].
  apply lookup_lt_is_Some_2 in Ht as [total Ht].
  destruct (IH (emit [class_line_per_spec name correct total] w))
    as (lines & Hrun & Hlen & Hlines).
  { intros k Hk. apply Hidx. now right. }
  exists (class_line_per_spec name correct total :: lines). split; [|split].
  - simpl. erewrite bind_returns by (eapply report_class_line; eassumption).
    rewrite Hrun, emit_emit. reflexivity.
  - simpl. now rewrite Hlen.
  - intros [|j] k Hk; simpl in Hk.
    + injection Hk as <-. now exists name, correct, total.
    + apply Hlines, Hk.
Qed.

(** The last line: printed, unless no sample was counted. *)
Lemma report_overall_stdout (cc ct : list nat) w :
  exists rest,
    stdout (final_world (report_overall cc ct w)) = stdout w ++ rest /\
    length rest <= 1.
Proof.
  unfold report_overall. destruct (sum_list ct =? 0)%nat.
  - exists []. simpl. rewrite app_nil_r. split; [reflexivity|lia].
  - eexists [_]. simpl. split; [reflexivity|lia].
Qed.

(** What [test_model] has printed in the end, after a pass that did not
    raise over a dataset that is not empty. *)
Lemma test_model_stdout netparams ds w loss (cc ct : list nat) w1 :
  test_pass forward criterion argmax netparams ds w = Returns (loss, cc, ct) w1 ->
  dataset_len (test_loader netparams) <> 0 ->
  class_num ds <= length (classes ds) ->
  exists lines rest,
    stdout (final_world (test_model forward criterion argmax netparams ds w))
    = stdout w
      ++ [LTestLoss (loss / float_of_nat (dataset_len (test_loader netparams)))%float]
      ++ lines ++ rest /\
    length lines = class_num ds /\ length rest <= 1 /\
    forall i, i < class_num ds ->
      exists name correct total,
        classes ds !! i = Some name /\ cc !! i = Some correct /\
        ct !! i = Some total /\
        lines !! i = Some (class_line_per_spec name correct total).
Proof.
  intros Hpass HN Hnames.
  pose proof (test_pass_returns _ _ _ _ _ _ _ Hpass) as (Hout & _ & _ & Hlc & Hlt & _).
  unfold test_model. erewrite bind_returns by exact Hpass. cbn beta iota.
  unfold truediv.
  destruct (Nat.eqb_spec (dataset_len (test_loader netparams)) 0) as [|_]; [done|].
  erewrite bind_returns by reflexivity.
  erewrite bind_returns by apply print_emit.
  destruct (report_loop ds cc ct (seq 0 (class_num ds))
              (emit [LTestLoss (loss / float_of_nat (dataset_len (test_loader netparams)))%float] w1))
    as (lines & Hrun & Hlen & Hlines).
  { intros i Hi. apply elem_of_seq in Hi. lia. }
  erewrite bind_returns by exact Hrun.
  destruct (report_overall_stdout cc ct
              (emit lines (emit [LTestLoss (loss / float_of_nat (dataset_len (test_loader netparams)))%float] w1)))
    as (rest & Hrest & Hlr).
  exists lines, rest. rewrite Hrest. simpl. rewrite Hout.
  rewrite length_seq in Hlen.
  split; [now rewrite <- !app_assoc|]. split; [exact Hlen|]. split; [exact Hlr|].
  intros i Hi. apply (Hlines i i). apply lookup_seq. lia.
Qed.

(** C7, as the code has it: the test loop stops at the first batch that is
    shorter than [batch_size].  That batch and every batch after it are left
    out of the loss and of the class counts (the whole of [test_model] runs
    as if they were not there); every batch in front of it is in: the
    reported mean test loss is the sum of [batch_loss * batch_size] over
    those batches divided by the size of the test dataset, and each of them
    adds [batch_size] samples to the class totals.  The pass returns when
    those batches are well formed. *)
Theorem test_loss_over_full_prefix netparams ds w :
  let kept := full_prefix (batch_size netparams) (batches (test_loader netparams)) in
  test_model forward criterion argmax (with_test_batches netparams kept) ds w
  = test_model forward criterion argmax netparams ds w /\
  (Forall (batch_well_formed forward argmax netparams ds (model w)) kept ->
   exists loss cc ct w',
     test_pass forward criterion argmax netparams ds w = Returns (loss, cc, ct) w') /\
  forall loss cc ct w',
    test_pass forward criterion argmax netparams ds w = Returns (loss, cc, ct) w' ->
    loss = loss_sum forward criterion false (model w) kept 0 /\
    sum_list ct = batch_size netparams * length kept /\
    (dataset_len (test_loader netparams) <> 0 ->
     exists lines,
       stdout (final_world (test_model forward criterion argmax netparams ds w))
       = stdout w
         ++ LTestLoss (loss_sum forward criterion false (model w) kept 0
                       / float_of_nat (dataset_len (test_loader netparams)))%float
            :: lines).
Proof.
  intros kept. split; [apply test_model_full_prefix|].
  split; [apply test_pass_total|].
  intros loss cc ct w' Hpass.
  pose proof (test_pass_returns _ _ _ _ _ _ _ Hpass) as (Hout & _ & Hloss & _ & _ & Hsum).
  fold kept in Hsum.
  split; [exact Hloss|]. split; [exact Hsum|].
  intros HN. unfold test_model. erewrite bind_returns by exact Hpass. cbn beta iota.
  unfold truediv.
  destruct (Nat.eqb_spec (dataset_len (test_loader netparams)) 0) as [|_]; [done|].
  erewrite bind_returns by reflexivity.
  erewrite bind_returns by apply print_emit.
  fold kept in Hloss. rewrite <- Hloss.
  set (w1 := emit _ w').
  assert (forall (idx : list nat) w0, exists more,
            stdout (final_world
              ((for_each (fun i _ => report_class ds cc ct i) idx tt
                ≫= fun _ => report_overall cc ct) w0)) = stdout w0 ++ more) as Hmore.
  { induction idx as [|i idx IH]; intros w0; simpl.
    - destruct (report_overall_stdout cc ct w0) as (rest & Hrest & _).
      exists rest. exact Hrest.
    - unfold mbind, Py_bind, py_bind in *.
      destruct (report_class ds cc ct i w0) as [[] w2|e w2] eqn:Hclass.
      + destruct (IH w2) as (more & Hm).
        assert (exists l, stdout w2 = stdout w0 ++ l) as (l & Hl).
        { unfold report_class, list_get in Hclass. py_unfold.
          destruct (ct !! i) as [t|]; [|discriminate].
          destruct (0 <? t)%nat; destruct (classes ds !! i); try discriminate;
            [destruct (cc !! i); [|discriminate]|];
            injection Hclass as <-; now eexists. }
        exists (l ++ more). rewrite Hm, Hl. now rewrite app_assoc.
      + exists []. simpl. rewrite app_nil_r.
        unfold report_class, list_get in Hclass. py_unfold.
        destruct (ct !! i) as [t|]; [|now injection Hclass as _ <-].
        destruct (0 <? t)%nat; destruct (classes ds !! i); try discriminate;
          try (now injection Hclass as _ <-).
        destruct (cc !! i); [discriminate|now injection Hclass as _ <-]. }
  destruct (Hmore (seq 0 (class_num ds)) w1) as (more & Hm).
  exists more. rewrite Hm. subst w1. simpl. rewrite Hout. now rewrite <- app_assoc.
Qed.

(** C8: after a test pass over well-formed batches, a dataset that is not
    empty and classes that all have a name, [test_model] has printed one
    line per class, in the order of the classes: not applicable when the
    total count of the class is zero, and only then; otherwise the correct
    count over the total count (as a percentage and as the two counts). *)
Theorem class_accuracy_report netparams ds w :
  Forall (batch_well_formed forward argmax netparams ds (model w))
         (full_prefix (batch_size netparams) (batches (test_loader netparams))) ->
  dataset_len (test_loader netparams) <> 0 ->
  class_num ds <= length (classes ds) ->
  exists loss cc ct w1 lines rest,
    test_pass forward criterion argmax netparams ds w = Returns (loss, cc, ct) w1 /\
    stdout (final_world (test_model forward criterion argmax netparams ds w))
    = stdout w
      ++ [LTestLoss (loss / float_of_nat (dataset_len (test_loader netparams)))%float]
      ++ lines ++ rest /\
    length lines = class_num ds /\ length rest <= 1 /\
    forall i, i < class_num ds ->
      exists name correct total,
        classes ds !! i = Some name /\ cc !! i = Some correct /\
        ct !! i = Some total /\
        (lines !! i = Some (LClassNA name) <-> total = 0) /\
        (total <> 0 ->
         lines !! i = Some (LClassAccuracy name (100 * correct / total) correct total)).
Proof.
  intros Hwf HN Hnames.
  destruct (test_pass_total netparams ds w Hwf) as (loss & cc & ct & w1 & Hpass).
  destruct (test_model_stdout _ _ _ _ _ _ _ Hpass HN Hnames)
    as (lines & rest & Hout & Hlen & Hrest & Hlines).
  exists loss, cc, ct, w1, lines, rest. repeat split; try assumption.
  intros i Hi. destruct (Hlines i Hi) as (name & correct & total & Hn & Hc & Ht & Hl).
  exists name, correct, total. repeat split; try assumption.
  - rewrite Hl. unfold class_line_per_spec.
    destruct (Nat.eqb_spec total 0); [done|discriminate].
  - intros ->. rewrite Hl. reflexivity.
  - intros Hpos. rewrite Hl. unfold class_line_per_spec.
    destruct (Nat.eqb_spec total 0); [done|reflexivity].
Qed.

End HarnessProofs.

(** * More about the code *)

(** ** Checkpoint names *)

Lemma string_append_cancel_r (s1 s2 t : string) :
  String.append s1 t = String.append s2 t -> s1 = s2.
Proof.
  revert s2. induction s1 as [|c s1 IH]; intros [|d s2] H; simpl in H.
  - reflexivity.
  - apply (f_equal String.length) in H. simpl in H.
    rewrite string_length_append in H. lia.
  - apply (f_equal String.length) in H. simpl in H.
    rewrite string_length_append in H. lia.
  - injection H as -> H. f_equal. now apply IH.
Qed.

Lemma format_03d_inj (e1 e2 : nat) : format_03d e1 = format_03d e2 -> e1 = e2.
Proof.
  intros H. apply (f_equal decimal_value) in H. rewrite !format_03d_value in H.
  now injection H.
Qed.

Lemma checkpoint_name_eq_epoch (e1 e2 : nat) :
  checkpoint_name e1 = checkpoint_name e2 -> e1 = e2.
Proof.
  unfold checkpoint_name. intros H.
  now apply format_03d_inj, string_append_cancel_r with "model_cifar.pt"%string.
Qed.

(** X1: two epochs never share a checkpoint name, at or beyond epoch 1000
    either. *)
Theorem checkpoint_name_inj (e1 e2 : nat) :
  checkpoint_name e1 = checkpoint_name e2 -> e1 = e2.
Proof.
  unfold checkpoint_name. intros H.
  now apply format_03d_inj, string_append_cancel_r with "model_cifar.pt"%string.
Qed.

Section HarnessMore.

Context {Params Data Output : Type}.
Variable forward : bool -> Params -> Data -> Output.
Variable criterion : Output -> list Z -> float.
Variable argmax : Output -> list Z.
Variable optimize : Params -> Data -> list Z -> Params.

Implicit Types (netparams : NetParams Data) (w : World Params) (b : Batch Data).

(** ** The trainer and the evaluator *)

(** X2: [train_model] never raises and prints the line [Training] and
    nothing else: the report due every twentieth batch is never printed,
    whatever the number of batches.  It leaves the model in training mode
    and touches neither the histories nor the checkpoints. *)
Theorem train_model_prints_training_only netparams tmp tl epoch w :
  exists r w',
    train_model forward criterion optimize netparams tmp tl epoch w = Returns r w' /\
    stdout w' = stdout w ++ [LTraining] /\
    training w' = true /\
    train_loss_array w' = train_loss_array w /\
    valid_loss_array w' = valid_loss_array w /\
    checkpoints w' = checkpoints w.
Proof.
  destruct (batches (train_loader netparams)) as [|b rest] eqn:Hb.
  - eexists _, _. split; [apply (train_model_no_batch _ _ _ _ _ _ _ _ Hb)|done].
  - eexists _, _. split; [apply (train_model_first_batch _ _ _ _ _ _ _ _ _ _ Hb)|done].
Qed.

(** Without a train loss the evaluation stops at the first division. *)
Lemma evaluate_model_none_world netparams v vmin epoch ni w :
  evaluate_model forward criterion netparams None v vmin epoch ni w
  = Raises TypeError
      (mkWorld (model w) false (model_on_gpu w) (train_loss_array w)
         (valid_loss_array w) (stdout w ++ [LEvaluation]) (checkpoints w)).
Proof.
  unfold evaluate_model, enumerate.
  erewrite bind_returns by reflexivity.
  erewrite bind_returns by reflexivity.
  erewrite bind_returns by apply validation_loop.
  reflexivity.
Qed.

Lemma evaluate_model_zero_world netparams t v vmin epoch ni w :
  sampler_len (train_loader netparams) = 0 \/
  sampler_len (validation_loader netparams) = 0 ->
  evaluate_model forward criterion netparams (Some t) v vmin epoch ni w
  = Raises ZeroDivisionError
      (mkWorld (model w) false (model_on_gpu w) (train_loss_array w)
         (valid_loss_array w) (stdout w ++ [LEvaluation]) (checkpoints w)).
Proof.
  intros H. unfold evaluate_model, enumerate.
  erewrite bind_returns by reflexivity.
  erewrite bind_returns by reflexivity.
  erewrite bind_returns by apply validation_loop.
  unfold truediv.
  destruct (Nat.eqb_spec (sampler_len (train_loader netparams)) 0) as [|Ht];
    [reflexivity|].
  destruct (Nat.eqb_spec (sampler_len (validation_loader netparams)) 0) as [|Hv];
    [reflexivity|].
  exfalso. destruct H; contradiction.
Qed.

(** X3: how [evaluate_model] ends.  It raises [TypeError] exactly when it is
    handed [None] for the train loss, [ZeroDivisionError] exactly when it is
    handed a train loss and one of the two sample counts is zero, and
    returns otherwise.  When it raises it has recorded nothing: both
    histories and the checkpoints are as before.  In every case the
    parameters of the model are untouched and the model is in evaluation
    mode. *)
Theorem evaluate_model_outcomes netparams train_loss v vmin epoch ni w :
  let zero := sampler_len (train_loader netparams) = 0 \/
              sampler_len (validation_loader netparams) = 0 in
  match evaluate_model forward criterion netparams train_loss v vmin epoch ni w with
  | Returns _ w' =>
      train_loss <> None /\ ~ zero /\ model w' = model w /\ training w' = false
  | Raises e w' =>
      (e = TypeError /\ train_loss = None \/
       e = ZeroDivisionError /\ train_loss <> None /\ zero) /\
      train_loss_array w' = train_loss_array w /\
      valid_loss_array w' = valid_loss_array w /\
      checkpoints w' = checkpoints w /\
      model w' = model w /\ training w' = false
  end.
Proof.
  intros zero. destruct train_loss as [t|].
  - destruct (Nat.eq_dec (sampler_len (train_loader netparams)) 0) as [Ht|Ht].
    { rewrite evaluate_model_zero_world by (left; exact Ht).
      split; [right; split; [reflexivity|split; [done|left; exact Ht]]|done]. }
    destruct (Nat.eq_dec (sampler_len (validation_loader netparams)) 0) as [Hv|Hv].
    { rewrite evaluate_model_zero_world by (right; exact Hv).
      split; [right; split; [reflexivity|split; [done|right; exact Hv]]|done]. }
    rewrite evaluate_model_returns by assumption.
    split; [done|]. split; [|done]. intros [H|H]; contradiction.
  - rewrite evaluate_model_none_world.
    split; [left; done|done].
Qed.

(** ** The epoch loop *)


(** X5: on a training loader that yields no batch, a run that has an epoch
    to do raises [TypeError] in its first epoch, after the lines [Training]
    and [Evaluation]: it returns no history, and has neither changed the
    parameters nor saved a checkpoint. *)
Theorem train_loop_without_batches netparams ni w :
  batches (train_loader netparams) = [] ->
  ni < max_no_improve_epochs netparams ->
  n_epochs netparams <> 0 ->
  train_loop forward criterion optimize netparams ni w
  = Raises TypeError
      (mkWorld (model w) false (model_on_gpu w) [] []
         (stdout w ++ [LTraining; LEvaluation]) (checkpoints w)).
Proof.
  intros Hb Hni Hn. unfold train_loop, train_loop_epochs.
  destruct (n_epochs netparams) as [|n]; [done|].
  erewrite bind_raises; [reflexivity|].
  erewrite bind_returns by reflexivity.
  cbn [seq for_loop].
  erewrite bind_raises; [reflexivity|].
  unfold train_loop_body.
  destruct (Nat.leb_spec (max_no_improve_epochs netparams) ni); [lia|].
  erewrite bind_returns by (apply train_model_no_batch; exact Hb).
  erewrite bind_raises by apply evaluate_model_none_world.
  simpl. now rewrite <- app_assoc.
Qed.

(** One epoch that returns without stopping leaves the checkpoints as they
    were or adds one, under the name of the epoch. *)
Lemma train_loop_body_checkpoints netparams ni epoch vmin w f w' :
  train_loop_body forward criterion optimize netparams ni epoch vmin w = Returns f w' ->
  checkpoints w' = checkpoints w \/
  checkpoints w' = checkpoints w ++ [(checkpoint_name epoch, model w')].
Proof.
  unfold train_loop_body.
  destruct (Nat.leb_spec (max_no_improve_epochs netparams) ni) as [Hstop|Hrun].
  { intros [= <- <-]. now left. }
  intros H.
  destruct (batches (train_loader netparams)) as [|b rest] eqn:Hb.
  { erewrite bind_returns in H by (apply train_model_no_batch; exact Hb).
    erewrite bind_raises in H by apply evaluate_model_none_world. discriminate. }
  erewrite bind_returns in H by (eapply train_model_first_batch; exact Hb).
  destruct (Nat.eq_dec (sampler_len (train_loader netparams)) 0) as [Ht|Ht].
  { erewrite bind_raises in H by (apply evaluate_model_zero_world; left; exact Ht).
    discriminate. }
  destruct (Nat.eq_dec (sampler_len (validation_loader netparams)) 0) as [Hv|Hv].
  { erewrite bind_raises in H by (apply evaluate_model_zero_world; right; exact Hv).
    discriminate. }
  erewrite bind_returns in H by (apply evaluate_model_returns; assumption).
  injection H as <- <-. simpl.
  destruct (_ <=? vmin)%float; [now right|now left].
Qed.

Lemma epoch_loop_checkpoints netparams ni epochs vmin w f w' :
  for_loop (train_loop_body forward criterion optimize netparams ni) epochs vmin w
  = Returns f w' ->
  exists saved,
    saved `sublist_of` epochs /\
    (checkpoints w').*1 = (checkpoints w).*1 ++ (checkpoint_name <$> saved).
Proof.
  revert vmin w. induction epochs as [|e es IH]; intros vmin w; simpl.
  { intros [= <- <-]. exists []. split; [constructor|]. simpl. now rewrite app_nil_r. }
  intros H. apply bind_returns_inv in H as (f1 & w1 & Hbody & Hrest).
  pose proof (train_loop_body_checkpoints _ _ _ _ _ _ _ Hbody) as Hck.
  assert (exists saved, saved `sublist_of` es /\
            (checkpoints w').*1 = (checkpoints w1).*1 ++ (checkpoint_name <$> saved))
    as (saved & Hsub & Hnames).
  { destruct f1 as [v1|v1|[]].
    - apply (IH _ _ Hrest).
    - injection Hrest as <- <-. exists []. split; [apply sublist_nil_l|].
      simpl. now rewrite app_nil_r. }
  destruct Hck as [Hck|Hck]; rewrite Hck in Hnames.
  - exists saved. split; [now apply sublist_cons|exact Hnames].
  - exists (e :: saved). split; [now apply sublist_skip|].
    rewrite Hnames, fmap_app. simpl. now rewrite <- app_assoc.
Qed.

(** X6: the checkpoints a run of [train_loop] writes are named after epochs
    of the run, each epoch at most once and in the order of the epochs: a
    run never overwrites a checkpoint of its own, and writes at most
    [n_epochs] of them. *)
Theorem train_loop_checkpoint_names netparams ni w tl vl w' :
  train_loop forward criterion optimize netparams ni w = Returns (tl, vl) w' ->
  exists saved,
    saved `sublist_of` seq 1 (n_epochs netparams) /\
    (checkpoints w').*1 = (checkpoints w).*1 ++ (checkpoint_name <$> saved) /\
    NoDup (checkpoint_name <$> saved) /\
    length saved <= n_epochs netparams.
Proof.
  unfold train_loop, train_loop_epochs. intros H.
  apply bind_returns_inv in H as (f & w1 & Hloop & Hret).
  apply bind_returns_inv in Hloop as ([] & w0 & [= <-] & Hloop).
  apply epoch_loop_checkpoints in Hloop as (saved & Hsub & Hnames). simpl in Hnames.
  assert (w' = w1) as ->.
  { destruct f as [s|s|[]]; py_unfold; now injection Hret as _ _ <-. }
  exists saved. split; [exact Hsub|]. split; [exact Hnames|]. split.
  - apply NoDup_fmap_2_strong.
    + intros e1 e2 _ _. apply checkpoint_name_eq_epoch.
    + eapply sublist_NoDup; [apply NoDup_seq|exact Hsub].
  - apply sublist_length in Hsub. now rewrite length_seq in Hsub.
Qed.

(** ** The tester's counters *)

Lemma list_iadd_shape {W : Type} (xs : list nat) label (v : Py W nat)
    (w : W) xs' (w' : W) :
  list_iadd xs label v w = Returns xs' w' ->
  exists k x y,
    py_index (length xs) label = Some k /\ xs !! k = Some x /\
    v w = Returns y w' /\ xs' = <[k := x + y]> xs.
Proof.
  unfold list_iadd, list_get.
  destruct (py_index (length xs) label) as [k|]; [|discriminate].
  destruct (xs !! k) as [x|] eqn:Hk; [|discriminate].
  py_unfold. destruct (v w) as [y w1|e w1] eqn:Hv; [|discriminate].
  intros [= <- <-]. now exists k, x, y.
Qed.

Lemma omap_lookup_seq {A : Type} (l : list A) j n :
  omap (fun i => l !! i) (seq j n) = take n (drop j l).
Proof.
  revert j. induction n as [|n IH]; intros j; simpl; [reflexivity|].
  rewrite IH. destruct (l !! j) as [x|] eqn:Hj.
  - now rewrite (drop_S _ _ _ Hj).
  - apply lookup_ge_None in Hj.
    rewrite !drop_ge by lia. now rewrite take_nil.
Qed.

Lemma label_count_cons n k l ls :
  label_count n k (l :: ls)
  = (if decide (py_index n l = Some k) then 1 else 0) + label_count n k ls.
Proof.
  unfold label_count. rewrite filter_cons.
  destruct (decide (py_index n l = Some k)); reflexivity.
Qed.

Lemma label_count_app n k ls1 ls2 :
  label_count n k (ls1 ++ ls2) = label_count n k ls1 + label_count n k ls2.
Proof. unfold label_count. now rewrite filter_app, length_app. Qed.

(** The loop over the samples of a batch keeps every correct count below
    its total, and adds to the total of a class the number of labels read
    that index it. *)
Lemma count_loop_counts (tgt : list Z) (correct : Squeezed) (idx : list nat)
    (n : nat) (cc ct cc' ct' : list nat) w w' :
  for_each
    (fun i '(class_correct, class_total) =>
       label ← list_get tgt i;
       class_correct ← list_iadd class_correct label
                         (hit ← squeezed_get correct i;
                          mret (if hit : bool then 1 else 0));
       class_total ← list_iadd class_total label (mret 1);
       mret (class_correct, class_total))
    idx (cc, ct) w
  = Returns (cc', ct') w' ->
  length cc = n -> length ct = n -> Forall2 le cc ct ->
  Forall2 le cc' ct' /\
  forall k c, ct !! k = Some c ->
              ct' !! k = Some (c + label_count n k (omap (fun i => tgt !! i) idx)).
Proof.
  revert cc ct w. induction idx as [|i idx IH]; intros cc ct w; cbn [for_each].
  { intros [= <- <- <-] _ _ Hle. split; [exact Hle|].
    intros k c Hk. rewrite Hk. f_equal. unfold label_count. simpl. lia. }
  intros H Hc Ht Hle.
  change (omap (fun i0 => tgt !! i0) (i :: idx))
    with (match tgt !! i with
          | Some l => l :: omap (fun i0 => tgt !! i0) idx
          | None => omap (fun i0 => tgt !! i0) idx
          end).
  apply bind_returns_inv in H as ([cc1 ct1] & w1 & Hbody & Hrest).
  apply bind_returns_inv in Hbody as (label & wa & Hlabel & Hbody).
  unfold list_get in Hlabel. destruct (tgt !! i) as [l|] eqn:Hl; [|discriminate].
  injection Hlabel as <- <-.
  apply bind_returns_inv in Hbody as (cc2 & wb & Hcc & Hbody).
  apply list_iadd_shape in Hcc as (k0 & x & y & Hk0 & Hx & Hy & ->).
  apply bind_returns_inv in Hy as (hit & wc & _ & Hy). injection Hy as <- <-.
  apply bind_returns_inv in Hbody as (ct2 & wd & Hct & Hbody).
  apply list_iadd_shape in Hct as (k1 & x' & y' & Hk1 & Hx' & Hy' & ->).
  injection Hy' as <- <-. injection Hbody as <- <- <-.
  rewrite Hc in Hk0. rewrite Ht, Hk0 in Hk1. injection Hk1 as <-.
  assert (x <= x') as Hxx by (eapply Forall2_lookup_lr; eassumption).
  apply IH in Hrest as (Hle' & Hcount); cycle 1.
  { now rewrite length_insert. }
  { now rewrite length_insert. }
  { apply Forall2_insert; [exact Hle|]. destruct hit; lia. }
  split; [exact Hle'|].
  intros k c Hk. rewrite label_count_cons.
  destruct (decide (py_index n l = Some k)) as [Heq|Hne].
  - rewrite Hk0 in Heq. injection Heq as <-.
    rewrite Hk in Hx'. injection Hx' as <-.
    rewrite (Hcount k0 (c + 1)); [f_equal; lia|].
    apply list_lookup_insert_eq. now apply lookup_lt_Some in Hk.
  - rewrite (Hcount k c); [f_equal; lia|].
    rewrite list_lookup_insert_ne; [exact Hk|]. congruence.
Qed.

Lemma test_loop_body_counts netparams b loss (cc ct : list nat) w
    loss' (cc' ct' : list nat) w' n :
  test_loop_body forward criterion argmax netparams b (loss, cc, ct) w
  = Returns (Continue (loss', cc', ct')) w' ->
  length cc = n -> length ct = n -> Forall2 le cc ct ->
  Forall2 le cc' ct' /\
  forall k c, ct !! k = Some c ->
              ct' !! k
              = Some (c + label_count n k (take (batch_size netparams) (target b))).
Proof.
  unfold test_loop_body.
  destruct (Nat.ltb_spec (length (target b)) (batch_size netparams)) as [Hshort|Hfull];
    [discriminate|].
  intros H Hc Ht Hle.
  assert (forall (A : Type) (x : A), cuda x = x) as Hcuda by reflexivity.
  assert ((if train_on_gpu netparams then (cuda (data b), cuda (target b))
           else (data b, target b)) = (data b, target b)) as Hmove.
  { destruct (train_on_gpu netparams); now rewrite ?Hcuda. }
  rewrite Hmove in H.
  apply bind_returns_inv in H as (output & wa & _ & H).
  apply bind_returns_inv in H as (correct & wb & _ & H).
  apply bind_returns_inv in H as ([cc1 ct1] & wc & Hcount & H).
  injection H as _ <- <- _.
  apply (count_loop_counts _ _ _ n) in Hcount as (Hle' & Hk); try assumption.
  split; [exact Hle'|].
  intros k c Hc'. rewrite (Hk k c Hc'), omap_lookup_seq, drop_0. reflexivity.
Qed.

Lemma counted_labels_cons (n : nat) b (bs : list (Batch Data)) :
  counted_labels n (b :: bs)
  = if (length (target b) <? n)%nat then []
    else take n (target b) ++ counted_labels n bs.
Proof.
  unfold counted_labels. simpl. destruct (length (target b) <? n)%nat; reflexivity.
Qed.

(** The test loop: the same, over the batches it retains. *)
Lemma test_loop_counts netparams bs loss (cc ct : list nat) w f w' n :
  for_loop (test_loop_body forward criterion argmax netparams) bs (loss, cc, ct) w
  = Returns f w' ->
  length cc = n -> length ct = n -> Forall2 le cc ct ->
  Forall2 le (flow_locals f).1.2 (flow_locals f).2 /\
  forall k c, ct !! k = Some c ->
              (flow_locals f).2 !! k
              = Some (c + label_count n k (counted_labels (batch_size netparams) bs)).
Proof.
  revert loss cc ct. induction bs as [|b bs IH]; intros loss cc ct; cbn [for_loop].
  { intros [= <- <-] _ _ Hle. split; [exact Hle|].
    intros k c Hk. simpl. rewrite Hk. f_equal. unfold counted_labels, label_count.
    simpl. lia. }
  intros H Hc Ht Hle.
  apply bind_returns_inv in H as (f1 & w1 & Hbody & Hrest).
  rewrite counted_labels_cons.
  pose proof Hbody as Hshape.
  apply test_loop_body_returns in Hshape
    as (-> & [(Hshort & ->)|(Hfull & cc1 & ct1 & -> & Hlc & Hlt & _)]).
  - injection Hrest as <- <-.
    destruct (Nat.ltb_spec (length (target b)) (batch_size netparams)); [|lia].
    split; [exact Hle|].
    intros k c Hk. simpl. rewrite Hk. f_equal. unfold label_count. simpl. lia.
  - destruct (Nat.ltb_spec (length (target b)) (batch_size netparams)); [lia|].
    apply (test_loop_body_counts _ _ _ _ _ _ _ _ _ _ n) in Hbody as (Hle1 & Hk1);
      try assumption.
    apply (IH _ _ _ Hrest) in Hle1 as (Hle2 & Hk2); try congruence.
    split; [exact Hle2|].
    intros k c Hk. rewrite (Hk2 k _ (Hk1 k c Hk)), label_count_app. f_equal. lia.
Qed.

Lemma test_pass_counts netparams ds w loss (cc ct : list nat) w' :
  test_pass forward criterion argmax netparams ds w = Returns (loss, cc, ct) w' ->
  Forall2 le cc ct /\
  forall k, k < class_num ds ->
            ct !! k
            = Some (label_count (class_num ds) k
                      (counted_labels (batch_size netparams)
                         (batches (test_loader netparams)))).
Proof.
  unfold test_pass. intros H.
  apply bind_returns_inv in H as ([] & wa & _ & H).
  apply bind_returns_inv in H as ([] & wb & _ & H).
  apply bind_returns_inv in H as (f & wc & Hloop & H).
  assert (flow_locals f = (loss, cc, ct)) as Hf.
  { destruct f as [s|s|[]]; now injection H as <- _. }
  apply (test_loop_counts _ _ _ _ _ _ _ _ (class_num ds)) in Hloop as (Hle & Hk).
  - rewrite Hf in Hle, Hk. simpl in Hle, Hk. split; [exact Hle|].
    intros k Hlt. rewrite (Hk k 0); [reflexivity|].
    now apply lookup_replicate_2.
  - apply length_replicate.
  - apply length_replicate.
  - apply Forall2_same_length_lookup_2; [reflexivity|].
    intros i x y Hx Hy. rewrite Hx in Hy. injection Hy as <-. lia.
Qed.

(** X7: after a test pass no class has more correct predictions than
    samples, so no percentage [test_model] prints for a class exceeds 100. *)
Theorem class_correct_at_most_total netparams ds w loss (cc ct : list nat) w' :
  test_pass forward criterion argmax netparams ds w = Returns (loss, cc, ct) w' ->
  forall i correct total,
    cc !! i = Some correct -> ct !! i = Some total ->
    correct <= total /\ (total <> 0 -> 100 * correct / total <= 100).
Proof.
  intros Hpass i correct total Hc Ht.
  apply test_pass_counts in Hpass as (Hle & _).
  assert (correct <= total) as Hct by (eapply Forall2_lookup_lr; eassumption).
  split; [exact Hct|]. intros _.
  apply Nat.Div0.div_le_upper_bound. lia.
Qed.

(** X8: after a test pass the total of class [k] is the number of counted
    labels that index [k], a negative label counting for the class it
    reaches from the end; the counted labels are the first [batch_size]
    labels of every batch in front of the first short one. *)
Theorem class_total_counts_labels netparams ds w loss (cc ct : list nat) w' :
  test_pass forward criterion argmax netparams ds w = Returns (loss, cc, ct) w' ->
  forall k, k < class_num ds ->
    ct !! k
    = Some (label_count (class_num ds) k
              (concat (map (fun b => take (batch_size netparams) (target b))
                         (full_prefix (batch_size netparams)
                            (batches (test_loader netparams)))))).
Proof.
  intros Hpass k Hk. apply test_pass_counts in Hpass as (_ & Hcount).
  exact (Hcount k Hk).
Qed.

(** ** How [test_model] ends *)

Lemma sum_list_le (l k : list nat) : Forall2 le l k -> sum_list l <= sum_list k.
Proof. induction 1; simpl; lia. Qed.

(** After a pass that returned, over a dataset that is not empty and classes
    that have names, all that is left to do is the last line. *)
Lemma test_model_last_step netparams ds w loss (cc ct : list nat) w1 :
  test_pass forward criterion argmax netparams ds w = Returns (loss, cc, ct) w1 ->
  dataset_len (test_loader netparams) <> 0 ->
  class_num ds <= length (classes ds) ->
  exists w2,
    stdout w2 ≠ [] /\
    test_model forward criterion argmax netparams ds w = report_overall cc ct w2.
Proof.
  intros Hpass HN Hnames.
  pose proof (test_pass_returns _ _ _ _ _ _ _ _ _ _ Hpass) as (_ & _ & _ & Hlc & Hlt & _).
  unfold test_model. erewrite bind_returns by exact Hpass. cbn beta iota.
  unfold truediv.
  destruct (Nat.eqb_spec (dataset_len (test_loader netparams)) 0) as [|_]; [done|].
  erewrite bind_returns by reflexivity.
  erewrite bind_returns by apply print_emit.
  destruct (report_loop ds cc ct (seq 0 (class_num ds))
              (emit [LTestLoss (loss / float_of_nat (dataset_len (test_loader netparams)))%float] w1))
    as (lines & Hrun & _).
  { intros i Hi. apply elem_of_seq in Hi. lia. }
  erewrite bind_returns by exact Hrun.
  eexists. split; [|reflexivity].
  simpl. intros H. apply (f_equal length) in H. rewrite !length_app in H. simpl in H. lia.
Qed.

(** X9: over well-formed batches, a dataset that is not empty and classes
    that have names, [test_model] ends on the overall line.  When the pass
    counted no sample ([batch_size] is zero, or no batch stands in front of
    the first short one) the percentage is [0.0 / 0.0] and the call raises
    [ValueError]; otherwise it returns, the last line printed being the
    overall accuracy over [batch_size] samples per retained batch, with no
    more correct predictions than samples. *)
Theorem test_model_overall_line netparams ds w :
  Forall (batch_well_formed forward argmax netparams ds (model w))
         (full_prefix (batch_size netparams) (batches (test_loader netparams))) ->
  dataset_len (test_loader netparams) <> 0 ->
  class_num ds <= length (classes ds) ->
  let counted :=
    batch_size netparams
    * length (full_prefix (batch_size netparams) (batches (test_loader netparams))) in
  (counted = 0 ->
   exists w', test_model forward criterion argmax netparams ds w = Raises ValueError w') /\
  (counted <> 0 ->
   exists correct w',
     test_model forward criterion argmax netparams ds w = Returns tt w' /\
     correct <= counted /\
     last (stdout w')
     = Some (LOverallAccuracy (100 * correct / counted) correct counted)).
Proof.
  intros Hwf HN Hnames counted.
  destruct (test_pass_total forward criterion argmax netparams ds w Hwf)
    as (loss & cc & ct & w1 & Hpass).
  pose proof (test_pass_returns _ _ _ _ _ _ _ _ _ _ Hpass) as (_ & _ & _ & _ & _ & Hsum).
  fold counted in Hsum.
  pose proof (test_pass_counts _ _ _ _ _ _ _ Hpass) as (Hle & _).
  apply sum_list_le in Hle.
  destruct (test_model_last_step _ _ _ _ _ _ _ Hpass HN Hnames) as (w2 & _ & ->).
  unfold report_overall. rewrite Hsum. split; intros Hc.
  - destruct (Nat.eqb_spec counted 0); [|done]. now eexists.
  - destruct (Nat.eqb_spec counted 0); [done|].
    exists (sum_list cc), (emit [LOverallAccuracy (100 * sum_list cc / counted)
                                   (sum_list cc) counted] w2).
    split; [reflexivity|]. split; [lia|]. simpl. apply last_snoc.
Qed.

(** X10: on a test dataset of size zero [test_model] raises
    [ZeroDivisionError] when it takes the mean, before it prints anything. *)
Theorem test_model_empty_dataset netparams ds w :
  Forall (batch_well_formed forward argmax netparams ds (model w))
         (full_prefix (batch_size netparams) (batches (test_loader netparams))) ->
  dataset_len (test_loader netparams) = 0 ->
  exists w',
    test_model forward criterion argmax netparams ds w = Raises ZeroDivisionError w' /\
    stdout w' = stdout w.
Proof.
  intros Hwf HN.
  destruct (test_pass_total forward criterion argmax netparams ds w Hwf)
    as (loss & cc & ct & w1 & Hpass).
  pose proof (test_pass_returns _ _ _ _ _ _ _ _ _ _ Hpass) as (Hout & _).
  unfold test_model. erewrite bind_returns by exact Hpass. cbn beta iota.
  unfold truediv. rewrite HN. simpl. exists w1. split; [reflexivity|exact Hout].
Qed.

(** X11: with a [batch_size] of one, a first batch of one sample makes
    [test_model] raise [IndexError]: [np.squeeze] turns the result of the
    single sample into a 0-dimensional array, which [correct[i]] cannot
    index.  Nothing has been printed by then. *)
Theorem test_model_batch_size_one netparams ds w b rest :
  batch_size netparams = 1 ->
  batches (test_loader netparams) = b :: rest ->
  length (target b) = 1 ->
  length (argmax (forward false (model w) (data b))) = 1 ->
  exists w',
    test_model forward criterion argmax netparams ds w = Raises IndexError w' /\
    stdout w' = stdout w.
Proof.
  intros Hbs Hb Ht Hp.
  destruct (target b) as [|l [|l' ls]] eqn:Htgt; try discriminate.
  destruct (argmax (forward false (model w) (data b))) as [|p [|p' ps]] eqn:Hpred;
    try discriminate.
  set (wa := mkWorld (model w) false (model_on_gpu w) (train_loss_array w)
               (valid_loss_array w) (stdout w) (checkpoints w)).
  assert (exists wb, (if train_on_gpu netparams then model_cuda Params else mret tt) wa
                     = Returns tt wb /\ training wb = false /\ model wb = model w /\
                     stdout wb = stdout w)
    as (wb & Hgpu & Hmode & Hmodel & Hout).
  { destruct (train_on_gpu netparams); eexists; (split; [reflexivity|done]). }
  exists wb. split; [|exact Hout].
  unfold test_model. erewrite bind_raises; [reflexivity|].
  unfold test_pass.
  erewrite bind_returns by reflexivity. fold wa.
  erewrite bind_returns by exact Hgpu.
  erewrite bind_raises; [reflexivity|].
  rewrite Hb. cbn [for_loop].
  erewrite bind_raises; [reflexivity|].
  unfold test_loop_body. rewrite Htgt, Hbs. cbn [length Nat.ltb Nat.leb].
  assert (forall (A : Type) (x : A), cuda x = x) as Hcuda by reflexivity.
  assert ((if train_on_gpu netparams then (cuda (data b), cuda [l])
           else (data b, [l])) = (data b, [l])) as ->.
  { destruct (train_on_gpu netparams); now rewrite ?Hcuda. }
  erewrite bind_returns by (unfold model_call, gets; rewrite Hmode, Hmodel; reflexivity).
  rewrite Hpred.
  erewrite bind_returns by reflexivity.
  erewrite bind_raises; [reflexivity|].
  cbn [seq for_each]. erewrite bind_raises; [reflexivity|].
  erewrite bind_returns by reflexivity.
  erewrite bind_raises; [reflexivity|].
  unfold list_iadd, list_get.
  destruct (py_index _ l) as [k|]; [|reflexivity].
  destruct (_ !! k); reflexivity.
Qed.

End HarnessMore.

(** ** What the tester leaves alone *)

Lemma keeps_ret {W A B : Type} (f : W -> B) (a : A) : keeps f (mret a : Py W A).
Proof. intros w. reflexivity. Qed.

Lemma keeps_throw {W A B : Type} (f : W -> B) (e : PyError) :
  keeps f (mthrow e : Py W A).
Proof. intros w. reflexivity. Qed.

Lemma keeps_gets {W A B : Type} (f : W -> B) (g : W -> A) : keeps f (gets g).
Proof. intros w. reflexivity. Qed.

Lemma keeps_modify {W B : Type} (f : W -> B) (g : W -> W) :
  (forall w, f (g w) = f w) -> keeps f (modify g).
Proof. intros H w. apply H. Qed.

Lemma keeps_bind {W A A' B : Type} (f : W -> B) (m : Py W A) (k : A -> Py W A') :
  keeps f m -> (forall a, keeps f (k a)) -> keeps f (m ≫= k).
Proof.
  intros Hm Hk w. specialize (Hm w). unfold mbind, Py_bind, py_bind.
  destruct (m w) as [a w1|e w1]; simpl in *; [|exact Hm].
  now rewrite (Hk a w1).
Qed.

Lemma keeps_for_each {W X S B : Type} (f : W -> B) (body : X -> S -> Py W S) xs s :
  (forall x s', keeps f (body x s')) -> keeps f (for_each body xs s).
Proof.
  intros Hbody. revert s. induction xs as [|x xs IH]; intros s; cbn [for_each].
  - apply keeps_ret.
  - apply keeps_bind; [apply Hbody|exact IH].
Qed.

Lemma keeps_for_loop {W X S R B : Type} (f : W -> B)
    (body : X -> S -> Py W (Flow S R)) xs s :
  (forall x s', keeps f (body x s')) -> keeps f (for_loop body xs s).
Proof.
  intros Hbody. revert s. induction xs as [|x xs IH]; intros s; cbn [for_loop].
  - apply keeps_ret.
  - apply keeps_bind; [apply Hbody|].
    intros [s'|s'|r]; [apply IH|apply keeps_ret|apply keeps_ret].
Qed.

Lemma keeps_list_get {W A B : Type} (f : W -> B) (xs : list A) i :
  keeps f (list_get xs i : Py W A).
Proof. unfold list_get. destruct (xs !! i); [apply keeps_ret|apply keeps_throw]. Qed.

Lemma keeps_list_iadd {W B : Type} (f : W -> B) xs label (v : Py W nat) :
  keeps f v -> keeps f (list_iadd xs label v).
Proof.
  intros Hv. unfold list_iadd. destruct (py_index _ label); [|apply keeps_throw].
  apply keeps_bind; [apply keeps_list_get|]. intros x.
  apply keeps_bind; [exact Hv|]. intros y. apply keeps_ret.
Qed.

Lemma keeps_truediv {W B : Type} (f : W -> B) x n : keeps f (truediv x n : Py W float).
Proof. unfold truediv. destruct (n =? 0)%nat; [apply keeps_throw|apply keeps_ret]. Qed.

Section TesterFrame.

Context {Params Data Output : Type}.
Variable forward : bool -> Params -> Data -> Output.
Variable criterion : Output -> list Z -> float.
Variable argmax : Output -> list Z.

Lemma keeps_print (l : Line) : keeps (@trained_state Params) (print l).
Proof. apply keeps_modify. reflexivity. Qed.

Lemma keeps_test_loop_body (netparams : NetParams Data) b locals :
  keeps (@trained_state Params)
    (test_loop_body forward criterion argmax netparams b locals).
Proof.
  unfold test_loop_body. destruct locals as [[loss cc] ct].
  destruct (_ <? _)%nat; [apply keeps_ret|].
  destruct (train_on_gpu netparams); unfold cuda.
  all: apply keeps_bind; [apply keeps_gets|]; intros output;
    apply keeps_bind;
      [unfold tensor_eq; destruct (_ =? _)%nat; [apply keeps_ret|apply keeps_throw]|];
    intros correct;
    apply keeps_bind; [|intros counts; apply keeps_ret];
    apply keeps_for_each; intros i [cc' ct'];
    apply keeps_bind; [apply keeps_list_get|]; intros label;
    apply keeps_bind;
      [apply keeps_list_iadd; apply keeps_bind;
         [unfold squeezed_get; destruct (squeeze correct);
            [apply keeps_throw|apply keeps_list_get]
         |intros hit; apply keeps_ret]|];
    intros cc'';
    apply keeps_bind; [apply keeps_list_iadd, keeps_ret|]; intros ct'';
    apply keeps_ret.
Qed.

(** X12: however [test_model] ends, by returning or by raising, it has
    changed neither the parameters of the model, nor the two loss histories,
    nor the checkpoints. *)
Theorem test_model_leaves_training_alone (netparams : NetParams Data) ds (w : World Params) :
  let w' := final_world (test_model forward criterion argmax netparams ds w) in
  model w' = model w /\
  train_loss_array w' = train_loss_array w /\
  valid_loss_array w' = valid_loss_array w /\
  checkpoints w' = checkpoints w.
Proof.
  assert (keeps (@trained_state Params)
            (test_model forward criterion argmax netparams ds)) as Hkeeps.
  { unfold test_model. apply keeps_bind.
    - unfold test_pass.
      apply keeps_bind; [apply keeps_modify; reflexivity|]. intros _.
      apply keeps_bind.
      { destruct (train_on_gpu netparams);
          [apply keeps_modify; reflexivity|apply keeps_ret]. }
      intros _. apply keeps_bind.
      { apply keeps_for_loop. intros b locals. apply keeps_test_loop_body. }
      intros [s|s|[]]; apply keeps_ret.
    - intros [[loss cc] ct].
      apply keeps_bind; [apply keeps_truediv|]. intros test_loss.
      apply keeps_bind; [apply keeps_print|]. intros _.
      apply keeps_bind.
      { apply keeps_for_each. intros i _. unfold report_class.
        apply keeps_bind; [apply keeps_list_get|]. intros total.
        destruct (0 <? total)%nat.
        - apply keeps_bind; [apply keeps_list_get|]. intros name.
          apply keeps_bind; [apply keeps_list_get|]. intros correct.
          apply keeps_print.
        - apply keeps_bind; [apply keeps_list_get|]. intros name.
          apply keeps_print. }
      intros _. unfold report_overall.
      destruct (_ =? 0)%nat; [apply keeps_throw|apply keeps_print]. }
  intros w'. specialize (Hkeeps w). fold w' in Hkeeps.
  unfold trained_state in Hkeeps. now injection Hkeeps.
Qed.

End TesterFrame.

(** ** [plot_loss] *)

Lemma min_from_pos best_pos best pos xs :
  best_pos < pos ->
  (min_from best_pos best pos xs).1 < pos + length xs.
Proof.
  revert best_pos best pos. induction xs as [|x xs IH]; intros bp best pos Hlt; simpl.
  - lia.
  - destruct (x <? best)%float.
    + specialize (IH pos x (S pos)). lia.
    + specialize (IH bp best (S pos)). lia.
Qed.

(** Searching from position [j], the element at [pos >= j] is found there
    at the latest, and nothing in front of the position found is [==] to
    the value searched. *)
Lemma index_from_found pos v j xs :
  j <= pos < j + length xs ->
  exists k,
    index_from pos v j xs = Some k /\ j <= k <= pos /\
    forall x, x ∈ take (k - j) xs -> (x =? v)%float = false.
Proof.
  revert j. induction xs as [|x xs IH]; intros j Hj; simpl in *; [lia|].
  destruct (Nat.eqb_spec j pos) as [->|Hne]; simpl.
  { exists pos. split; [reflexivity|]. split; [lia|].
    rewrite Nat.sub_diag. simpl. intros y Hy. inversion Hy. }
  destruct (x =? v)%float eqn:Hx.
  { exists j. split; [reflexivity|]. split; [lia|].
    rewrite Nat.sub_diag. simpl. intros y Hy. inversion Hy. }
  destruct (IH (S j)) as (k & Hk & Hrange & Hnone); [lia|].
  exists k. split; [exact Hk|]. split; [lia|].
  replace (k - j) with (S (k - S j)) by lia. simpl.
  intros y Hy. apply elem_of_cons in Hy as [->|Hy]; [exact Hx|now apply Hnone].
Qed.

(** The minimum is an element of the list, at the position it is returned
    with. *)
Lemma min_from_elem best_pos best pos xs p m :
  min_from best_pos best pos xs = (p, m) ->
  (p = best_pos /\ m = best) \/ (pos <= p /\ xs !! (p - pos) = Some m).
Proof.
  revert best_pos best pos. induction xs as [|x xs IH]; intros bp best pos; simpl.
  - intros [= <- <-]. now left.
  - destruct (x <? best)%float; intros H; apply IH in H as [[-> ->]|[Hle Hx]].
    + right. split; [lia|]. now rewrite Nat.sub_diag.
    + right. split; [lia|]. now replace (p - pos) with (S (p - S pos)) by lia.
    + now left.
    + right. split; [lia|]. now replace (p - pos) with (S (p - S pos)) by lia.
Qed.

(** X13: [plot_loss] on an empty history raises [ValueError] (from [min])
    and draws nothing.  On any other history it returns, having plotted one
    curve, labelled the axis and shown the figure; the curve is the history
    cut in front of position [k], which is at or in front of the position of
    the minimum [min] returns and has no value [==] to that minimum in front
    of it: the minimum itself and all that follows it are never drawn, and
    a history of one value gives an empty curve. *)
Theorem plot_loss_cuts_at_minimum (loss_name : string) (loss_array : list float)
    (calls : Canvas) :
  (loss_array = [] ->
   plot_loss loss_name loss_array calls = Raises ValueError calls) /\
  (loss_array <> [] ->
   exists k p m,
     py_min loss_array calls = Returns (p, m) calls /\
     loss_array !! p = Some m /\
     k <= p /\
     (forall x, x ∈ take k loss_array -> (x =? m)%float = false) /\
     plot_loss loss_name loss_array calls
     = Returns tt
         (calls ++ [PltPlot (take k loss_array); PltYlabel loss_name; PltShow])).
Proof.
  split; [intros ->; reflexivity|].
  intros Hne. destruct loss_array as [|x xs]; [done|].
  unfold plot_loss. cbn [py_min].
  erewrite bind_returns by reflexivity.
  destruct (min_from 0 x 1 xs) as [p m] eqn:Hmin.
  assert (p < length (x :: xs)) as Hp.
  { pose proof (min_from_pos 0 x 1 xs ltac:(lia)) as H. rewrite Hmin in H.
    simpl in *. lia. }
  assert ((x :: xs) !! p = Some m) as Helem.
  { apply min_from_elem in Hmin as [[-> ->]|[Hle Hx]]; [reflexivity|].
    destruct p as [|p]; [lia|]. now replace (S p - 1) with p in Hx by lia. }
  destruct (index_from_found p m 0 (x :: xs)) as (k & Hk & Hrange & Hnone); [lia|].
  rewrite Nat.sub_0_r in Hnone.
  exists k, p, m. split; [reflexivity|]. split; [exact Helem|]. split; [lia|].
  split; [exact Hnone|].
  unfold list_index. cbn [fst snd]. rewrite Hk.
  erewrite bind_returns by reflexivity.
  unfold plt. py_unfold. now rewrite <- !app_assoc.
Qed.

(** * The code on concrete runs *)

Import Scenario.

(** C1: [train_model] on a loader of two batches (four samples each, losses
    2 and 3) returns after the first: one gradient step instead of two, and
    the loss sum [2 * 4 = 8] of the first batch instead of [8 + 3 * 4 = 20]
    over the pass. *)
Theorem train_model_returns_after_first_batch :
  batches (train_loader netparams) = [train_batch_a; train_batch_b] /\
  train_model forward criterion optimize netparams 0 0 1 world0
  = Returns (Some 8%float) (mkWorld 1 true false [] [] [LTraining] []).
Proof. split; reflexivity. Qed.

(** C6: on a loader that yields no batch [train_model] returns [None], not
    a loss of zero, and the epoch then fails in [evaluate_model] with a
    [TypeError]. *)
Theorem train_model_without_batches_returns_none :
  batches (train_loader no_training_data) = [] /\
  train_model forward criterion optimize no_training_data 0 0 1 world0
  = Returns None (mkWorld 0 true false [] [] [LTraining] []) /\
  train_loop forward criterion optimize no_training_data 0 world0
  = Raises TypeError (mkWorld 0 false false [] [] [LTraining; LEvaluation] []).
Proof. repeat split; reflexivity. Qed.

(** C2: with [epoch_count = 3], [patience = 1] and validation losses 0.5,
    0.6, 0.4 all three epochs run: the second epoch does not improve, and
    the third is trained, evaluated and checkpointed all the same. *)
Theorem early_stopping_scenario_runs_third_epoch :
  train_loop forward criterion optimize netparams 0 world0
  = Returns ([1; 1; 1]%float, [0.5; 0.6; 0.4]%float)
      (mkWorld 3 false false [1; 1; 1]%float [0.5; 0.6; 0.4]%float
         [LTraining; LEvaluation; LEpochStats 1 3 1 0.5; LSaving infinity 0.5;
          LTraining; LEvaluation; LEpochStats 2 3 1 0.6; LNoImprovement 1;
          LTraining; LEvaluation; LEpochStats 3 3 1 0.4; LSaving 0.5 0.4]
         [("001model_cifar.pt"%string, 1); ("003model_cifar.pt"%string, 3)]).
Proof. vm_compute. reflexivity. Qed.

(** C3: with validation losses 0.5, 0.6, 0.7, 0.8 and a patience of two, the
    epochs 2, 3 and 4 do not improve on 0.5.  Each of them reports one epoch
    without improvement: the counter the loop reads is 0 before every epoch,
    and the fourth epoch runs although two epochs in a row had brought no
    improvement. *)
Theorem no_improvement_counter_stays_at_start :
  train_loop forward criterion optimize rising 0 world0
  = Returns ([1; 1; 1; 1]%float, [0.5; 0.6; 0.7; 0.8]%float)
      (mkWorld 4 false false [1; 1; 1; 1]%float [0.5; 0.6; 0.7; 0.8]%float
         [LTraining; LEvaluation; LEpochStats 1 4 1 0.5; LSaving infinity 0.5;
          LTraining; LEvaluation; LEpochStats 2 4 1 0.6; LNoImprovement 1;
          LTraining; LEvaluation; LEpochStats 3 4 1 0.7; LNoImprovement 1;
          LTraining; LEvaluation; LEpochStats 4 4 1 0.8; LNoImprovement 1]
         [("001model_cifar.pt"%string, 1)]).
Proof. vm_compute. reflexivity. Qed.

(** The best validation loss over the first two epochs of the scenario of
    C2: infinity, then 0.5, then 0.5 again. *)
Lemma valid_loss_min_non_increasing_witness :
  flow_locals (Continue 0.5%float) = flow_locals (Continue 0.5%float) \/
  ((flow_locals (Continue 0.5%float) <=? flow_locals (Continue 0.5%float))%float = true /\
   last [0.5; 0.6]%float = Some (flow_locals (Continue 0.5%float))).
Proof.
  refine (proj2 (valid_loss_min_non_increasing forward criterion optimize netparams 0 world0)
            1 (Continue 0.5%float)
            (mkWorld 1 false false [1]%float [0.5]%float
               [LTraining; LEvaluation; LEpochStats 1 3 1 0.5; LSaving infinity 0.5]
               [("001model_cifar.pt"%string, 1)])
            (Continue 0.5%float)
            (mkWorld 2 false false [1; 1]%float [0.5; 0.6]%float
               [LTraining; LEvaluation; LEpochStats 1 3 1 0.5; LSaving infinity 0.5;
                LTraining; LEvaluation; LEpochStats 2 3 1 0.6; LNoImprovement 1]
               [("001model_cifar.pt"%string, 1)])
            _ _); vm_compute; reflexivity.
Defined.

(** The first evaluation of the scenario of C2: the train sum 8 over 8
    samples, the validation sum 0.5 over one sample. *)
Lemma evaluate_model_records_means_witness :
  exists vmin' w',
    evaluate_model forward criterion netparams (Some 8%float) 0 infinity 1 0
      (mkWorld 1 true false [] [] [LTraining] [])
    = Returns vmin' w' /\
    train_loss_array w' = [] ++ [(8 / float_of_nat 8)%float] /\
    valid_loss_array w'
    = [] ++ [(loss_sum forward criterion false 1%nat [valid_batch] 0
              / float_of_nat 1)%float].
Proof.
  apply (evaluate_model_records_means forward criterion netparams 8%float 0%float
           infinity 1 0 (mkWorld 1 true false [] [] [LTraining] []));
    simpl; lia.
Defined.

Lemma checkpoint_iff_improved_witness :
  exists vmin' w',
    evaluate_model forward criterion netparams (Some 8%float) 0 infinity 1 0
      (mkWorld 1 true false [] [] [LTraining] [])
    = Returns vmin' w' /\
    ((mean_valid_loss forward criterion netparams 1%nat 0 <=? infinity)%float = true <->
     checkpoints w' = [] ++ [(String.append (format_03d 1) "model_cifar.pt", 1)]) /\
    ((mean_valid_loss forward criterion netparams 1%nat 0 <=? infinity)%float = false <->
     checkpoints w' = []) /\
    decimal_value (format_03d 1) = Some 1 /\
    3 <= String.length (format_03d 1) /\
    (1 < 1000 -> String.length (format_03d 1) = 3).
Proof.
  apply (checkpoint_iff_improved forward criterion netparams 8%float 0%float
           infinity 1 0 (mkWorld 1 true false [] [] [LTraining] []));
    simpl; lia.
Defined.

(** The run of the scenario of C2 returns two histories of three entries,
    after three calls of [train_model]. *)
Lemma train_loop_histories_witness :
  length [1; 1; 1]%float = length [0.5; 0.6; 0.4]%float /\
  trainings
    [LTraining; LEvaluation; LEpochStats 1 3 1 0.5; LSaving infinity 0.5;
     LTraining; LEvaluation; LEpochStats 2 3 1 0.6; LNoImprovement 1;
     LTraining; LEvaluation; LEpochStats 3 3 1 0.4; LSaving 0.5 0.4]
  = trainings [] + length [1; 1; 1]%float.
Proof.
  assert (train_loop forward criterion optimize netparams 0 world0
          = Returns ([1; 1; 1]%float, [0.5; 0.6; 0.4]%float)
              (mkWorld 3 false false [1; 1; 1]%float [0.5; 0.6; 0.4]%float
                 [LTraining; LEvaluation; LEpochStats 1 3 1 0.5; LSaving infinity 0.5;
                  LTraining; LEvaluation; LEpochStats 2 3 1 0.6; LNoImprovement 1;
                  LTraining; LEvaluation; LEpochStats 3 3 1 0.4; LSaving 0.5 0.4]
                 [("001model_cifar.pt"%string, 1); ("003model_cifar.pt"%string, 3)]))
    as Hrun by (vm_compute; reflexivity).
  destruct (proj2 (train_loop_histories forward criterion optimize netparams 0 world0)
              _ _ _ Hrun) as (H1 & H2 & _).
  split; [exact H1|exact H2].
Defined.

(** C7, as the specification words it, fails when a short batch comes
    first: with batches of two, a batch of one sample followed by a batch of
    two (loss 1.5), the specification retains the second batch, for a loss
    sum of [1.5 * 2 = 3] and two samples counted; the test loop has stopped
    at the first batch, with a loss sum of 0 and nothing counted. *)
Lemma short_batch_first_counterexample :
  retained_per_spec (batch_size short_first) (batches (test_loader short_first))
  = [full_batch] /\
  test_pass forward criterion argmax short_first working_ds world0
  = Returns (0%float, [0; 0; 0], [0; 0; 0]) world0 /\
  ~ (forall loss cc ct w',
       test_pass forward criterion argmax short_first working_ds world0
       = Returns (loss, cc, ct) w' ->
       loss = loss_sum forward criterion false (model world0)
                (retained_per_spec (batch_size short_first)
                   (batches (test_loader short_first))) 0 /\
       sum_list ct
       = batch_size short_first
         * length (retained_per_spec (batch_size short_first)
                     (batches (test_loader short_first)))).
Proof.
  split; [vm_compute; reflexivity|]. split; [vm_compute; reflexivity|].
  intros H.
  destruct (H 0%float [0; 0; 0] [0; 0; 0] world0) as [_ Hcount];
    [vm_compute; reflexivity|].
  vm_compute in Hcount. discriminate.
Qed.

(** The batches of the scenario's test loader in front of the short one. *)
Lemma scenario_test_batches_well_formed :
  Forall (batch_well_formed forward argmax netparams working_ds (model world0))
         (full_prefix (batch_size netparams) (batches (test_loader netparams))).
Proof.
  apply Forall_cons. split; [|apply Forall_nil_2].
  split; [reflexivity|]. split; [right; simpl; lia|].
  intros [|[|i]] label Hi Hl; simpl in *; try lia; injection Hl as <-; lia.
Qed.

(** With the short batch last, the batch of two is the whole pass: a loss
    sum of 3 and two samples counted. *)
Lemma test_loss_over_full_prefix_witness :
  3%float
  = loss_sum forward criterion false (model world0)
      (full_prefix 2 [full_batch; short_batch]) 0 /\
  sum_list [1; 1; 0] = 2 * length (full_prefix 2 [full_batch; short_batch]).
Proof.
  assert (test_pass forward criterion argmax netparams working_ds world0
          = Returns (3%float, [1; 0; 0], [1; 1; 0]) world0) as Hpass
    by (vm_compute; reflexivity).
  destruct (proj2 (proj2 (test_loss_over_full_prefix forward criterion argmax
                            netparams working_ds world0)) _ _ _ _ Hpass)
    as (H1 & H2 & _).
  split; [exact H1|exact H2].
Defined.

(** The same pass reports one line per class. *)
Lemma class_accuracy_report_witness :
  exists lines rest,
    stdout (final_world (test_model forward criterion argmax netparams working_ds world0))
    = [] ++ [LTestLoss (3 / float_of_nat 3)%float] ++ lines ++ rest /\
    length lines = 3.
Proof.
  destruct (class_accuracy_report forward criterion argmax netparams working_ds world0
              scenario_test_batches_well_formed)
    as (loss & cc & ct & w1 & lines & rest & Hpass & Hout & Hlen & _);
    [simpl; lia|simpl; lia|].
  assert (loss = 3%float) as ->.
  { assert (test_pass forward criterion argmax netparams working_ds world0
            = Returns (3%float, [1; 0; 0], [1; 1; 0]) world0) as Hrun
      by (vm_compute; reflexivity).
    rewrite Hrun in Hpass. now injection Hpass as <- _ _ _. }
  exists lines, rest. split; [exact Hout|exact Hlen].
Defined.

(** ** The edges, on concrete runs *)

Lemma checkpoint_name_inj_witness : 7 = 7.
Proof. exact (checkpoint_name_inj 7 7 eq_refl). Defined.


Lemma train_loop_without_batches_witness :
  train_loop forward criterion optimize no_training_data 0 world0
  = Raises TypeError (mkWorld 0 false false [] [] [LTraining; LEvaluation] []).
Proof.
  apply (train_loop_without_batches forward criterion optimize no_training_data 0 world0);
    [reflexivity|simpl; lia|simpl; lia].
Defined.

(** The run of the scenario saves after its first and third epochs. *)
Lemma train_loop_checkpoint_names_witness :
  exists saved,
    saved `sublist_of` [1; 2; 3] /\
    ["001model_cifar.pt"; "003model_cifar.pt"]%string
    = [] ++ (checkpoint_name <$> saved) /\
    NoDup (checkpoint_name <$> saved) /\
    length saved <= 3.
Proof.
  assert (train_loop forward criterion optimize netparams 0 world0
          = Returns ([1; 1; 1]%float, [0.5; 0.6; 0.4]%float)
              (mkWorld 3 false false [1; 1; 1]%float [0.5; 0.6; 0.4]%float
                 [LTraining; LEvaluation; LEpochStats 1 3 1 0.5; LSaving infinity 0.5;
                  LTraining; LEvaluation; LEpochStats 2 3 1 0.6; LNoImprovement 1;
                  LTraining; LEvaluation; LEpochStats 3 3 1 0.4; LSaving 0.5 0.4]
                 [("001model_cifar.pt"%string, 1); ("003model_cifar.pt"%string, 3)]))
    as Hrun by (vm_compute; reflexivity).
  exact (train_loop_checkpoint_names forward criterion optimize netparams 0 world0
           _ _ _ Hrun).
Defined.

(** The test pass of the scenario: one sample of class 0, predicted right,
    and one of class 1, predicted wrong. *)
Lemma class_correct_at_most_total_witness :
  0 <= 1 /\ (1 <> 0 -> 100 * 0 / 1 <= 100).
Proof.
  assert (test_pass forward criterion argmax netparams working_ds world0
          = Returns (3%float, [1; 0; 0], [1; 1; 0]) world0) as Hpass
    by (vm_compute; reflexivity).
  exact (class_correct_at_most_total forward criterion argmax netparams working_ds
           world0 _ _ _ _ Hpass 1 0 1 eq_refl eq_refl).
Defined.

Lemma class_total_counts_labels_witness :
  [1; 1; 0] !! 1
  = Some (label_count 3 1
            (concat (map (fun b : Batch Data => take 2 (target b))
                       (full_prefix 2 [full_batch; short_batch])))).
Proof.
  assert (test_pass forward criterion argmax netparams working_ds world0
          = Returns (3%float, [1; 0; 0], [1; 1; 0]) world0) as Hpass
    by (vm_compute; reflexivity).
  apply (class_total_counts_labels forward criterion argmax netparams working_ds
           world0 _ _ _ _ Hpass 1).
  simpl. lia.
Defined.

(** The test of the scenario ends on an overall accuracy over two samples. *)
Lemma test_model_overall_line_witness :
  exists correct w',
    test_model forward criterion argmax netparams working_ds world0 = Returns tt w' /\
    correct <= 2 * 1 /\
    last (stdout w') = Some (LOverallAccuracy (100 * correct / (2 * 1)) correct (2 * 1)).
Proof.
  apply (proj2 (test_model_overall_line forward criterion argmax netparams working_ds
                  world0 scenario_test_batches_well_formed
                  ltac:(simpl; lia) ltac:(simpl; lia))).
  simpl. lia.
Defined.

Lemma test_model_empty_dataset_witness :
  exists w',
    test_model forward criterion argmax Edge.empty_test working_ds world0
    = Raises ZeroDivisionError w' /\
    stdout w' = [].
Proof.
  apply (test_model_empty_dataset forward criterion argmax Edge.empty_test working_ds
           world0); [apply Forall_nil_2|reflexivity].
Defined.

Lemma test_model_batch_size_one_witness :
  exists w',
    test_model forward criterion argmax Edge.one_by_one working_ds world0
    = Raises IndexError w' /\
    stdout w' = [].
Proof.
  apply (test_model_batch_size_one forward criterion argmax Edge.one_by_one working_ds
           world0 short_batch []); reflexivity.
Defined.
